(** * Smart Menu web application: order lifecycle across the role screens

    A shallow embedding of the client logic of the Next.js application:
    the staff screen (app/pos/orders/page.tsx), the kitchen display
    (KitchenDisplayPage), the POS login (app/pos/login/page.tsx), the
    customer menu page (RestaurantMenuPage: cart, validation, totals) and
    the order-status page (app/order-status/[order_id]/page.tsx).

    React state is passed explicitly: a handler is a function from the page
    state to the page state, a [setX (prev => ...)] call is the function
    applied to the field.  Arrays are lists (order and duplicates matter).
    Timestamps are instants in milliseconds ([Z]).  The numbers the menu
    page computes with (prices, fees, totals) are IEEE 754 binary64 values,
    as in the language; JSON numbers that are only carried or compared are
    rationals ([Q]); quantities are integers ([Z]).

    The storage collaborator behind the requests is not among the source
    files: [Backend] follows sections 3, 4.1 and 6 of the specification. *)

From Stdlib Require Import List String Ascii ZArith QArith Lia Bool.
From Stdlib Require Import Sorted Permutation.
From Stdlib Require Import PrimFloat SpecFloat FloatOps.
Import ListNotations.

Local Open Scope string_scope.
Local Open Scope Z_scope.

Set Warnings "-inexact-float".

(** ** Rows shared by the staff and kitchen screens *)

Inductive OrderStatus : Set :=
| pending | confirmed | preparing | ready | completed | cancelled.

Inductive ServiceType : Set := dine_in | pickup | delivery.

Definition OrderStatus_eqb (a b : OrderStatus) : bool :=
  match a, b with
  | pending, pending | confirmed, confirmed | preparing, preparing
  | ready, ready | completed, completed | cancelled, cancelled => true
  | _, _ => false
  end.

(** [['completed', 'cancelled'].includes(status)] *)
Definition completed_or_cancelled (s : OrderStatus) : bool :=
  match s with
  | completed | cancelled => true
  | _ => false
  end.

Module OrderItem.
Record t : Type := mk {
  menu_id : string;
  name : string;
  nameEn : option string;
  quantity : Z;
  price : Q;
  selectedMeat : option string;
  selectedAddOns : option (list string);
  notes : option string
}.
End OrderItem.

(** The [orders] row as the realtime payload carries it.  [updated_at] is a
    column of the row (the order-status page declares it); the interfaces of
    the staff and kitchen screens do not declare it and no handler of these
    screens reads it. *)
Module Order.
Record t : Type := mk {
  id : string;
  table_no : option string;
  items : list OrderItem.t;
  status : OrderStatus;
  service_type : ServiceType;
  special_instructions : option string;
  created_at : Z;
  customer_name : option string;
  total_price : Q;
  updated_at : Z
}.
End Order.

Inductive RequestType : Set :=
| call_waiter | request_sauce | request_water | request_bill | other.

Module RequestStatus.
Inductive t : Set := pending | acknowledged | completed.

Definition eqb (a b : t) : bool :=
  match a, b with
  | pending, pending | acknowledged, acknowledged | completed, completed => true
  | _, _ => false
  end.
End RequestStatus.

Module ServiceRequest.
Record t : Type := mk {
  id : string;
  table_no : string;
  request_type : RequestType;
  message : option string;
  status : RequestStatus.t;
  created_at : Z
}.
End ServiceRequest.

Module POSSession.
Record t : Type := mk {
  staffId : string;
  staffName : string;
  role : string;
  restaurantId : string;
  restaurantName : string;
  restaurantSlug : string;
  primaryLanguage : option string;
  expires : Z
}.
End POSSession.

(** A [postgres_changes] payload: [eventType], with [payload.new] the row
    for INSERT and UPDATE and [payload.old.id] for DELETE. *)
Inductive ChangeEvent (row : Type) : Type :=
| INSERT (new : row)
| UPDATE (new : row)
| DELETE (old_id : string).

Arguments INSERT {row} new.
Arguments UPDATE {row} new.
Arguments DELETE {row} old_id.

Definition is_insert {row : Type} (e : ChangeEvent row) : bool :=
  match e with
  | INSERT _ => true
  | _ => false
  end.

Definition inserts {row : Type} (events : list (ChangeEvent row)) : nat :=
  List.length (filter is_insert events).

Inductive Route : Set := ThisPage | PosLogin | PosKitchen | PosOrders.

(** What one call of [playNotification] emits: the tone, when sound is on,
    and the vibration pattern, when vibration is on and the device has it. *)
Inductive NotificationType : Set := order_alert | request_alert.

Inductive Sound : Set :=
| Mp3
| WebAudio (pattern : list Z).

Record Played : Set := mkPlayed {
  played_type : NotificationType;
  played_sound : option Sound;
  played_vibration : option (list Z)
}.

(** The calls of [playNotification] for a new order among those made. *)
Definition order_alerts (l : list Played) : nat :=
  List.length (filter (fun x => match played_type x with
                                | order_alert => true
                                | request_alert => false
                                end) l).

(** The calls of [playNotification] for a new service request. *)
Definition request_alerts (l : list Played) : nat :=
  List.length (filter (fun x => match played_type x with
                                | order_alert => false
                                | request_alert => true
                                end) l).

(** JavaScript truthiness of a string: the empty string is falsy. *)
Definition truthy (s : string) : bool := negb (s =? "")%string.

(** The object handed to [supabase.from('service_requests').update(...)]:
    a key whose value is [undefined] is absent. *)
Module RequestUpdate.
Record t : Type := mk {
  status : RequestStatus.t;
  acknowledged_by : option string;
  acknowledged_at : option Z;
  completed_at : option Z;
  updated_at : Z
}.
End RequestUpdate.

(** The columns of a [service_requests] row that the update can write. *)
Module RequestRow.
Record t : Type := mk {
  id : string;
  status : RequestStatus.t;
  acknowledged_by : option string;
  acknowledged_at : option Z;
  completed_at : option Z;
  updated_at : Z
}.

Definition keep {A : Type} (new old : option A) : option A :=
  match new with
  | Some x => Some x
  | None => old
  end.

(** [.update(u).eq('id', requestId)] of the Supabase client: every row with
    that id takes the keys present in [u], the other columns stay. *)
Definition update (u : RequestUpdate.t) (requestId : string) (table : list t)
  : list t :=
  map (fun r =>
         if (id r =? requestId)%string
         then mk (id r) (RequestUpdate.status u)
                 (keep (RequestUpdate.acknowledged_by u) (acknowledged_by r))
                 (keep (RequestUpdate.acknowledged_at u) (acknowledged_at r))
                 (keep (RequestUpdate.completed_at u) (completed_at r))
                 (RequestUpdate.updated_at u)
         else r)
      table.
End RequestRow.

(** ** The staff screen, [StaffOrdersPage] *)

Module Staff.

Inductive Tab : Set := orders_tab | requests_tab.

Record Page : Type := mkPage {
  storage : option POSSession.t;      (* localStorage 'pos_session' *)
  route : Route;
  session : option POSSession.t;
  orders : list Order.t;
  serviceRequests : list ServiceRequest.t;
  activeTab : Tab;
  volume : Z;
  soundEnabled : bool;
  vibrationEnabled : bool;
  audioContext : bool;                (* audioContextRef.current is set *)
  canVibrate : bool;                  (* 'vibrate' in navigator *)
  played : list Played                (* calls of playNotification, latest first *)
}.

Definition initial (stored : option POSSession.t) (audio vib : bool) : Page :=
  mkPage stored ThisPage None [] [] orders_tab 70 true true audio vib [].

Definition setOrders (f : list Order.t -> list Order.t) (p : Page) : Page :=
  mkPage (storage p) (route p) (session p) (f (orders p)) (serviceRequests p)
         (activeTab p) (volume p) (soundEnabled p) (vibrationEnabled p)
         (audioContext p) (canVibrate p) (played p).

Definition setServiceRequests
    (f : list ServiceRequest.t -> list ServiceRequest.t) (p : Page) : Page :=
  mkPage (storage p) (route p) (session p) (orders p) (f (serviceRequests p))
         (activeTab p) (volume p) (soundEnabled p) (vibrationEnabled p)
         (audioContext p) (canVibrate p) (played p).

Definition setActiveTab (t : Tab) (p : Page) : Page :=
  mkPage (storage p) (route p) (session p) (orders p) (serviceRequests p)
         t (volume p) (soundEnabled p) (vibrationEnabled p)
         (audioContext p) (canVibrate p) (played p).

Definition setSession (s : POSSession.t) (p : Page) : Page :=
  mkPage (storage p) (route p) (Some s) (orders p) (serviceRequests p)
         (activeTab p) (volume p) (soundEnabled p) (vibrationEnabled p)
         (audioContext p) (canVibrate p) (played p).

Definition removeItem (p : Page) : Page :=
  mkPage None (route p) (session p) (orders p) (serviceRequests p)
         (activeTab p) (volume p) (soundEnabled p) (vibrationEnabled p)
         (audioContext p) (canVibrate p) (played p).

Definition push (r : Route) (p : Page) : Page :=
  mkPage (storage p) r (session p) (orders p) (serviceRequests p)
         (activeTab p) (volume p) (soundEnabled p) (vibrationEnabled p)
         (audioContext p) (canVibrate p) (played p).

Definition record (x : Played) (p : Page) : Page :=
  mkPage (storage p) (route p) (session p) (orders p) (serviceRequests p)
         (activeTab p) (volume p) (soundEnabled p) (vibrationEnabled p)
         (audioContext p) (canVibrate p) (x :: played p).

(** The session check that runs when the page is mounted. *)
Definition checkSession (now : Z) (p : Page) : Page :=
  match storage p with
  | None => push PosLogin p
  | Some parsedSession =>
      if POSSession.expires parsedSession <? now
      then push PosLogin (removeItem p)
      else setSession parsedSession p
  end.

Definition playWebAudioNotification (type : NotificationType) (p : Page)
  : option Sound :=
  if audioContext p
  then Some (WebAudio (match type with
                       | request_alert => [600; 800; 600; 800]
                       | order_alert => [800; 1000]
                       end))
  else None.

Definition playNotification (type : NotificationType) (p : Page) : Page :=
  record
    (mkPlayed type
       (if soundEnabled p then playWebAudioNotification type p else None)
       (if vibrationEnabled p && canVibrate p
        then Some (match type with
                   | request_alert => [300; 100; 300; 100; 300]
                   | order_alert => [200; 100; 200]
                   end)
        else None))
    p.

(** [fetchOrders], given the list the backend answered with. *)
Definition fetchOrders (answer : list Order.t) (p : Page) : Page :=
  setOrders
    (fun _ => filter (fun o => negb (completed_or_cancelled (Order.status o)))
                     answer)
    p.

(** The callback of the 'staff-orders' channel. *)
Definition ordersChannel (payload : ChangeEvent Order.t) (p : Page) : Page :=
  match payload with
  | INSERT new =>
      setOrders (fun prev => new :: prev) (playNotification order_alert p)
  | UPDATE newOrder =>
      if completed_or_cancelled (Order.status newOrder)
      then setOrders
             (fun prev =>
                filter (fun o => negb (Order.id o =? Order.id newOrder)%string)
                       prev)
             p
      else setOrders
             (fun prev =>
                map (fun order =>
                       if (Order.id order =? Order.id newOrder)%string
                       then newOrder else order)
                    prev)
             p
  | DELETE old_id =>
      setOrders
        (fun prev => filter (fun order => negb (Order.id order =? old_id)%string)
                            prev)
        p
  end.

(** The callback of the 'staff-requests' channel. *)
Definition requestsChannel (payload : ChangeEvent ServiceRequest.t) (p : Page)
  : Page :=
  match payload with
  | INSERT new =>
      setActiveTab requests_tab
        (setServiceRequests (fun prev => new :: prev)
           (playNotification request_alert p))
  | UPDATE newRequest =>
      if RequestStatus.eqb (ServiceRequest.status newRequest)
                           RequestStatus.completed
      then setServiceRequests
             (fun prev =>
                filter (fun r => negb (ServiceRequest.id r
                                       =? ServiceRequest.id newRequest)%string)
                       prev)
             p
      else setServiceRequests
             (fun prev =>
                map (fun req =>
                       if (ServiceRequest.id req
                           =? ServiceRequest.id newRequest)%string
                       then newRequest else req)
                    prev)
             p
  | DELETE old_id =>
      setServiceRequests
        (fun prev =>
           filter (fun req => negb (ServiceRequest.id req =? old_id)%string)
                  prev)
        p
  end.

(** The realtime effect returns before subscribing unless
    [session?.restaurantId] is truthy. *)
Definition subscribed (p : Page) : bool :=
  match session p with
  | Some s => truthy (POSSession.restaurantId s)
  | None => false
  end.

(** An order event reaching the client at time [now]. *)
Definition deliver (now : Z) (payload : ChangeEvent Order.t) (p : Page) : Page :=
  if subscribed p then ordersChannel payload p else p.

(** [updateOrderStatus], given how the PUT request ended:
    [Some ok] is the [response.ok] of the answer, [None] a thrown error. *)
Definition updateOrderStatus (response : option bool)
    (orderId : string) (newStatus : OrderStatus) (p : Page) : Page :=
  match response with
  | Some true =>
      if completed_or_cancelled newStatus
      then setOrders
             (fun prev => filter (fun o => negb (Order.id o =? orderId)%string)
                                 prev)
             p
      else p
  | _ => p
  end.

(** The targets of the buttons drawn under an order of status [s]. *)
Definition actions (s : OrderStatus) : list OrderStatus :=
  (if OrderStatus_eqb s ready then [completed] else [])
  ++ (if negb (OrderStatus_eqb s ready) && negb (OrderStatus_eqb s completed)
      then [completed] else []).

Definition handleLogout (p : Page) : Page := push PosLogin (removeItem p).

Definition pendingRequestsCount (p : Page) : nat :=
  List.length (filter (fun r => RequestStatus.eqb (ServiceRequest.status r)
                                             RequestStatus.pending)
                 (serviceRequests p)).

(** The update object of [updateRequestStatus], built at time [now]. *)
Definition requestUpdate (s : option POSSession.t) (now : Z)
    (newStatus : RequestStatus.t) : RequestUpdate.t :=
  RequestUpdate.mk
    newStatus
    (if RequestStatus.eqb newStatus RequestStatus.acknowledged
     then option_map POSSession.staffId s else None)
    (if RequestStatus.eqb newStatus RequestStatus.acknowledged
     then Some now else None)
    (if RequestStatus.eqb newStatus RequestStatus.completed
     then Some now else None)
    now.

(** How the update request ended: no error, an error object, or a throw. *)
Inductive UpdateOutcome : Set := Updated | Refused | UpdateThrew.

(** [updateRequestStatus] on the page and on the table behind it. *)
Definition updateRequestStatus (now : Z) (outcome : UpdateOutcome)
    (requestId : string) (newStatus : RequestStatus.t)
    (w : Page * list RequestRow.t) : Page * list RequestRow.t :=
  let (p, table) := w in
  match outcome with
  | Updated =>
      (if RequestStatus.eqb newStatus RequestStatus.completed
       then setServiceRequests
              (fun prev =>
                 filter (fun r => negb (ServiceRequest.id r =? requestId)%string)
                        prev)
              p
       else p,
       RequestRow.update (requestUpdate (session p) now newStatus)
                         requestId table)
  | Refused | UpdateThrew => (p, table)
  end.

(** The targets of the buttons drawn under a service request. *)
Definition requestActions (s : RequestStatus.t) : list RequestStatus.t :=
  (if RequestStatus.eqb s RequestStatus.pending
   then [RequestStatus.acknowledged] else [])
  ++ [RequestStatus.completed].

(** The order events of a list reaching a subscribed page one after the
    other. *)
Definition receive (events : list (ChangeEvent Order.t)) (p : Page) : Page :=
  fold_left (fun q e => ordersChannel e q) events p.

(** Order events reaching the client, each at its own time. *)
Definition deliverAll (events : list (Z * ChangeEvent Order.t)) (p : Page)
  : Page :=
  fold_left (fun q te => deliver (fst te) (snd te) q) events p.

(** The text of [getTimeSince], without its translation: just now, a
    number of minutes, or a number of hours. *)
Inductive TimeSince : Set :=
| JustNow
| MinutesAgo (minutes : Z)
| HoursAgo (hours : Z).

Definition getTimeSince (now createdAt : Z) : TimeSince :=
  let diff := now - createdAt in
  let minutes := diff / 60000 in
  if minutes <? 1 then JustNow
  else if minutes <? 60 then MinutesAgo minutes
  else HoursAgo (minutes / 60).

(** The request events of a list reaching the page one after the other. *)
Definition receiveRequests (events : list (ChangeEvent ServiceRequest.t))
    (p : Page) : Page :=
  fold_left (fun q e => requestsChannel e q) events p.

End Staff.

(** ** The kitchen display, [KitchenDisplayPage] *)

Module Kitchen.

Record Page : Type := mkPage {
  storage : option POSSession.t;      (* localStorage 'pos_session' *)
  route : Route;
  session : option POSSession.t;
  orders : list Order.t;
  volume : Z;
  soundEnabled : bool;
  vibrationEnabled : bool;
  audioRef : bool;                    (* the mp3 element reached canplaythrough *)
  mp3Plays : bool;                    (* audioRef.current.play() resolves *)
  audioContext : bool;                (* audioContextRef.current is set *)
  canVibrate : bool;                  (* 'vibrate' in navigator *)
  played : list Played                (* calls of playNotification, latest first *)
}.

Definition setOrders (f : list Order.t -> list Order.t) (p : Page) : Page :=
  mkPage (storage p) (route p) (session p) (f (orders p))
         (volume p) (soundEnabled p) (vibrationEnabled p)
         (audioRef p) (mp3Plays p) (audioContext p) (canVibrate p) (played p).

Definition setSession (s : POSSession.t) (p : Page) : Page :=
  mkPage (storage p) (route p) (Some s) (orders p)
         (volume p) (soundEnabled p) (vibrationEnabled p)
         (audioRef p) (mp3Plays p) (audioContext p) (canVibrate p) (played p).

Definition removeItem (p : Page) : Page :=
  mkPage None (route p) (session p) (orders p)
         (volume p) (soundEnabled p) (vibrationEnabled p)
         (audioRef p) (mp3Plays p) (audioContext p) (canVibrate p) (played p).

Definition push (r : Route) (p : Page) : Page :=
  mkPage (storage p) r (session p) (orders p)
         (volume p) (soundEnabled p) (vibrationEnabled p)
         (audioRef p) (mp3Plays p) (audioContext p) (canVibrate p) (played p).

Definition record (x : Played) (p : Page) : Page :=
  mkPage (storage p) (route p) (session p) (orders p)
         (volume p) (soundEnabled p) (vibrationEnabled p)
         (audioRef p) (mp3Plays p) (audioContext p) (canVibrate p)
         (x :: played p).

(** The session check that runs when the page is mounted. *)
Definition checkSession (now : Z) (p : Page) : Page :=
  match storage p with
  | None => push PosLogin p
  | Some parsedSession =>
      if POSSession.expires parsedSession <? now
      then push PosLogin (removeItem p)
      else setSession parsedSession p
  end.

Definition playWebAudioNotification (p : Page) : option Sound :=
  if audioContext p then Some (WebAudio [800; 1000]) else None.

Definition playNotification (p : Page) : Page :=
  record
    (mkPlayed order_alert
       (if soundEnabled p
        then if audioRef p
             then if mp3Plays p then Some Mp3 else playWebAudioNotification p
             else playWebAudioNotification p
        else None)
       (if vibrationEnabled p && canVibrate p
        then Some [200; 100; 200] else None))
    p.

(** [fetchOrders], given the list the backend answered with (the request
    asks for status=pending,confirmed,preparing; the answer is stored as
    it comes). *)
Definition fetchOrders (answer : list Order.t) (p : Page) : Page :=
  setOrders (fun _ => answer) p.

(** The callback of the 'kitchen-orders' channel. *)
Definition channel (payload : ChangeEvent Order.t) (p : Page) : Page :=
  match payload with
  | INSERT new =>
      setOrders (fun prev => new :: prev) (playNotification p)
  | UPDATE new =>
      setOrders
        (fun prev =>
           filter (fun o => negb (completed_or_cancelled (Order.status o)))
                  (map (fun order =>
                          if (Order.id order =? Order.id new)%string
                          then new else order)
                       prev))
        p
  | DELETE old_id =>
      setOrders
        (fun prev => filter (fun order => negb (Order.id order =? old_id)%string)
                            prev)
        p
  end.

Definition subscribed (p : Page) : bool :=
  match session p with
  | Some s => truthy (POSSession.restaurantId s)
  | None => false
  end.

(** An order event reaching the client at time [now]. *)
Definition deliver (now : Z) (payload : ChangeEvent Order.t) (p : Page) : Page :=
  if subscribed p then channel payload p else p.

(** [updateOrderStatus], given how the PUT request ended:
    [Some ok] is the [response.ok] of the answer, [None] a thrown error. *)
Definition updateOrderStatus (response : option bool)
    (orderId : string) (newStatus : OrderStatus) (p : Page) : Page :=
  match response with
  | Some true =>
      if OrderStatus_eqb newStatus completed
         || OrderStatus_eqb newStatus cancelled
      then setOrders
             (fun prev => filter (fun o => negb (Order.id o =? orderId)%string)
                                 prev)
             p
      else p
  | _ => p
  end.

(** The targets of the buttons drawn under an order of status [s]. *)
Definition actions (s : OrderStatus) : list OrderStatus :=
  (if OrderStatus_eqb s pending then [confirmed] else [])
  ++ (if OrderStatus_eqb s confirmed then [preparing] else [])
  ++ (if OrderStatus_eqb s preparing then [ready] else [])
  ++ (if OrderStatus_eqb s ready then [completed] else []).

Definition handleLogout (p : Page) : Page := push PosLogin (removeItem p).

(** The order events of a list reaching a subscribed page one after the
    other. *)
Definition receive (events : list (ChangeEvent Order.t)) (p : Page) : Page :=
  fold_left (fun q e => channel e q) events p.

(** Order events reaching the client, each at its own time. *)
Definition deliverAll (events : list (Z * ChangeEvent Order.t)) (p : Page)
  : Page :=
  fold_left (fun q te => deliver (fst te) (snd te) q) events p.

Definition initial (stored : option POSSession.t) (mp3 plays audio vib : bool)
  : Page :=
  mkPage stored ThisPage None [] 70 true true mp3 plays audio vib [].

(** The text of [getTimeSince], without its translation. *)
Inductive TimeSince : Set :=
| JustNow
| MinutesAgo (minutes : Z)
| HoursMinutesAgo (hours minutes : Z).

Definition getTimeSince (now createdAt : Z) : TimeSince :=
  let diff := now - createdAt in
  let minutes := diff / 60000 in
  if minutes <? 1 then JustNow
  else if minutes <? 60 then MinutesAgo minutes
  else HoursMinutesAgo (minutes / 60) (minutes mod 60).

(** The border classes of [getUrgencyColor]. *)
Inductive Urgency : Set :=
| border_green | border_yellow | border_orange | border_red_pulse.

Definition getUrgencyColor (now createdAt : Z) : Urgency :=
  let diff := now - createdAt in
  let minutes := diff / 60000 in
  if minutes <? 5 then border_green
  else if minutes <? 10 then border_yellow
  else if minutes <? 15 then border_orange
  else border_red_pulse.

Definition urgency_rank (u : Urgency) : Z :=
  match u with
  | border_green => 0
  | border_yellow => 1
  | border_orange => 2
  | border_red_pulse => 3
  end.

End Kitchen.

(** ** The POS login, [POSLoginPage] *)

Module Login.

Record Restaurant : Type := mkRestaurant {
  id : string;
  name : string;
  slug : string;
  primaryLanguage : option string
}.

Record StaffRow : Type := mkStaff {
  staff_id : string;
  staff_name : string;
  staff_role : string
}.

(** The answer of /api/staff/verify-pin: a thrown error, or the JSON with
    [success] and [staff]. *)
Inductive PinAnswer : Type :=
| PinThrew
| PinData (success : bool) (staff : option StaffRow).

Record Page : Type := mkPage {
  storage : option POSSession.t;      (* localStorage 'pos_session' *)
  route : Route;
  selectedRestaurant : option Restaurant;
  pin : string;
  error : string                      (* key of the message shown, or empty *)
}.

Definition or_default (o : option string) (d : string) : string :=
  match o with
  | Some s => if truthy s then s else d
  | None => d
  end.

(** The saved-session check that runs when the login page is mounted. *)
Definition checkSavedSession (now : Z) (p : Page) : Page :=
  match storage p with
  | None => p
  | Some session =>
      if POSSession.expires session >? now
      then mkPage (storage p)
                  (if (POSSession.role session =? "chef")%string
                   then PosKitchen else PosOrders)
                  (selectedRestaurant p) (pin p) (error p)
      else mkPage None (route p) (selectedRestaurant p) (pin p) (error p)
  end.

(** The session object built on a verified PIN.  A field read through
    [selectedRestaurant?.] on no restaurant is undefined, written as the
    empty string (both are falsy). *)
Definition newSession (now : Z) (staff : StaffRow) (r : option Restaurant)
  : POSSession.t :=
  POSSession.mk
    (staff_id staff) (staff_name staff) (staff_role staff)
    (match r with Some x => id x | None => "" end)
    (match r with Some x => name x | None => "" end)
    (match r with Some x => slug x | None => "" end)
    (Some (or_default (match r with Some x => primaryLanguage x | None => None end)
                      "th"))
    (now + 8 * 60 * 60 * 1000).

Definition handlePinSubmit (now : Z) (answer : PinAnswer) (p : Page) : Page :=
  if negb (Nat.eqb (String.length (pin p)) 6) then p
  else
    match answer with
    | PinData true (Some staff) =>
        mkPage (Some (newSession now staff (selectedRestaurant p)))
               (if (staff_role staff =? "chef")%string
                then PosKitchen else PosOrders)
               (selectedRestaurant p) (pin p) ""
    | PinData _ _ =>
        mkPage (storage p) (route p) (selectedRestaurant p) "" "invalidPin"
    | PinThrew =>
        mkPage (storage p) (route p) (selectedRestaurant p) (pin p) "error"
    end.

Definition setPin (v : string) (p : Page) : Page :=
  mkPage (storage p) (route p) (selectedRestaurant p) v (error p).

(** [pin.slice(0, -1)] *)
Fixpoint dropLast (s : string) : string :=
  match s with
  | EmptyString => EmptyString
  | String c rest =>
      match rest with
      | EmptyString => EmptyString
      | String _ _ => String c (dropLast rest)
      end
  end.

(** [handlePinSubmit] called from a callback created in the render that
    saw the page [seen], while the page is [current]: the reads ([pin],
    [selectedRestaurant]) are those of [seen], the writes land on
    [current]. *)
Definition handlePinSubmitFrom (seen : Page) (now : Z) (answer : PinAnswer)
    (current : Page) : Page :=
  if negb (Nat.eqb (String.length (pin seen)) 6) then current
  else
    match answer with
    | PinData true (Some staff) =>
        mkPage (Some (newSession now staff (selectedRestaurant seen)))
               (if (staff_role staff =? "chef")%string
                then PosKitchen else PosOrders)
               (selectedRestaurant current) (pin current) ""
    | PinData _ _ =>
        mkPage (storage current) (route current) (selectedRestaurant current)
               "" "invalidPin"
    | PinThrew =>
        mkPage (storage current) (route current) (selectedRestaurant current)
               (pin current) "error"
    end.

(** [handlePinKeyPress]: the timeout set on the sixth character calls the
    [handlePinSubmit] of the render in which the key was pressed. *)
Definition handlePinKeyPress (now : Z) (answer : PinAnswer) (digit : string)
    (p : Page) : Page :=
  if (String.length (pin p) <? 6)%nat
  then
    let newPin := (pin p ++ digit)%string in
    let typed := setPin newPin p in
    if Nat.eqb (String.length newPin) 6
    then handlePinSubmitFrom p now answer typed
    else typed
  else p.

Definition handlePinDelete (p : Page) : Page := setPin (dropLast (pin p)) p.

(** The keys of the number pad. *)
Inductive Key : Set :=
| Digit (d : ascii)
| ClearKey
| DelKey.

Definition pressKey (now : Z) (answer : PinAnswer) (k : Key) (p : Page) : Page :=
  match k with
  | DelKey => handlePinDelete p
  | ClearKey => setPin "" p
  | Digit d => handlePinKeyPress now answer (String d EmptyString) p
  end.

Definition pressKeys (now : Z) (answer : PinAnswer) (keys : list Key) (p : Page)
  : Page :=
  fold_left (fun q k => pressKey now answer k q) keys p.

End Login.

(** ** The order-status page, [OrderStatusPage] *)

Module StatusPage.

Record OrderRow : Type := mkRow {
  id : string;
  restaurant_id : string;
  table_no : option string;
  items : list OrderItem.t;
  subtotal : Q;
  tax : Q;
  delivery_fee : Q;
  total_price : Q;
  status : OrderStatus;
  service_type : option ServiceType;
  customer_name : option string;
  customer_phone : option string;
  special_instructions : option string;
  created_at : Z;
  updated_at : Z;
  completed_at : option Z
}.

(** The text of [estimatedTime]; [Minutes m] stands for "~m minutes". *)
Inductive Estimated : Set :=
| NotYet | ReadyNow | Completed | Cancelled | AlmostReady | Minutes (m : Z).

Record Page : Type := mkPage {
  order : option OrderRow;
  loading : bool;
  error : string;
  estimatedTime : Estimated
}.

Definition initial : Page := mkPage None true "" NotYet.

(** The answer of GET /api/orders/<order_id>: a thrown error with its
    message, a response that is not ok with its status code, or an ok
    response with the [success] and [order] of its JSON. *)
Inductive Answer : Type :=
| Threw (message : string)
| NotOk (code : Z)
| Ok (success : bool) (data_order : OrderRow).

Definition calculateEstimatedTime (now : Z) (o : OrderRow) : Estimated :=
  let elapsed := (now - created_at o) / (1000 * 60) in
  let after estimatedMinutes :=
    if estimatedMinutes <=? 0 then AlmostReady else Minutes estimatedMinutes in
  match status o with
  | pending => after (15 - elapsed)
  | preparing => after (10 - elapsed)
  | ready => ReadyNow
  | completed => Completed
  | cancelled => Cancelled
  | confirmed => after 0
  end.

Definition fetchOrder (now : Z) (answer : Answer) (p : Page) : Page :=
  match answer with
  | NotOk code =>
      mkPage (order p) false
             (if code =? 404 then "Order not found" else "Failed to fetch order")
             (estimatedTime p)
  | Ok true o => mkPage (Some o) false (error p) (calculateEstimatedTime now o)
  | Ok false _ => mkPage (order p) false "Failed to fetch order" (estimatedTime p)
  | Threw message =>
      mkPage (order p) false
             (if truthy message then message else "Failed to fetch order")
             (estimatedTime p)
  end.

(** What the page draws. *)
Inductive Screen : Set := LoadingScreen | NotFoundScreen | StatusScreen.

Definition screen (p : Page) : Screen :=
  if loading p then LoadingScreen
  else if truthy (error p) || negb (match order p with
                                    | Some _ => true
                                    | None => false
                                    end)
  then NotFoundScreen
  else StatusScreen.

(** The first fetch and the reloads that the realtime UPDATE events of the
    order start, each with its time and its answer. *)
Definition reload (fetches : list (Z * Answer)) (p : Page) : Page :=
  fold_left (fun q f => fetchOrder (fst f) (snd f) q) fetches p.

End StatusPage.

(** ** The status graph of the specification *)

(** Modelled from the spec: section 4.1 gives the states
    pending, confirmed, preparing, ready, completed, with cancelled
    reachable from pending, confirmed, preparing and ready; no source file
    holds this graph. *)
Definition spec_next (s : OrderStatus) : option OrderStatus :=
  match s with
  | pending => Some confirmed
  | confirmed => Some preparing
  | preparing => Some ready
  | ready => Some completed
  | completed | cancelled => None
  end.

Definition spec_edge (s t : OrderStatus) : bool :=
  match spec_next s with
  | Some n => OrderStatus_eqb n t || OrderStatus_eqb t cancelled
  | None => false
  end.

(** ** The customer menu page, [RestaurantMenuPage] *)

(** Text typed by the customer, as UTF-16 code units, so that
    [String.prototype.trim] has its exact meaning. *)
Definition text : Set := list N.

Definition utf16 (s : string) : text := map N_of_ascii (list_ascii_of_string s).

(** WhiteSpace and LineTerminator of ECMAScript (all in the basic plane). *)
Definition is_whitespace (c : N) : bool :=
  ((9 <=? c) && (c <=? 13) || (c =? 32) || (c =? 160) || (c =? 5760)
   || (8192 <=? c) && (c <=? 8202) || (c =? 8232) || (c =? 8233)
   || (c =? 8239) || (c =? 8287) || (c =? 12288) || (c =? 65279))%N.

Fixpoint trimStart (s : text) : text :=
  match s with
  | c :: rest => if is_whitespace c then trimStart rest else s
  | [] => []
  end.

Definition trimEnd (s : text) : text := rev (trimStart (rev s)).

Definition trim (s : text) : text := trimEnd (trimStart s).

(** [!s.trim()] *)
Definition blank (s : text) : bool :=
  match trim s with
  | [] => true
  | _ :: _ => false
  end.

(** Truthiness of a number that may be null: null and 0 are falsy. *)
Definition number_truthy (x : option Q) : bool :=
  match x with
  | Some q => negb (Qeq_bool q 0)
  | None => false
  end.

Definition not_null {A : Type} (x : option A) : bool :=
  match x with
  | Some _ => true
  | None => false
  end.

(** [a || b] on strings that may be undefined. *)
Definition or_string (a : option string) (b : option string) : option string :=
  match a with
  | Some s => if truthy s then a else b
  | None => b
  end.

(** The number of the language for an integer. *)
Definition of_Z (z : Z) : float :=
  SF2Prim (binary_normalize prec emax z 0 false).

(** A number read where the value may be undefined: undefined gives NaN. *)
Definition toNumber (x : option float) : float :=
  match x with
  | Some v => v
  | None => nan
  end.

(** The key [delivery_fee] of a JSON answer: absent, null, or a number. *)
Inductive FeeField : Set :=
| FeeAbsent
| FeeNull
| FeeNumber (fee : float).

Module Extra.
Record t : Type := mk {
  name : string;
  nameEn : option string;
  price : string
}.

(** [m.nameEn || m.name] *)
Definition label (m : t) : string :=
  match or_string (nameEn m) (Some (name m)) with
  | Some s => s
  | None => name m
  end.
End Extra.

Module MenuItem.
Record t : Type := mk {
  menu_id : string;
  name : string;
  nameEn : option string;
  description : option string;
  price : string;
  category : string;
  meats : option (list Extra.t);
  addOns : option (list Extra.t);
  originalName : option string        (* (menu as any).originalName *)
}.
End MenuItem.

Module CartItem.
Record t : Type := mk {
  menu_id : string;
  name : string;
  nameEn : option string;
  price : float;
  quantity : Z;
  selectedMeat : option string;
  selectedAddOns : option (list string);
  notes : option string
}.
End CartItem.

Module DeliveryRate.
Record t : Type := mk {
  id : string;
  distance_km : Q;
  price : float
}.
End DeliveryRate.

Module CustomerDetails.
Record t : Type := mk {
  table_no : text;
  name : text;
  phone : text;
  pickup_time : text;
  address : text
}.
End CustomerDetails.

(** The state [deliveryCalculation]; an optional key that is not set is
    [None]. *)
Module DeliveryCalculation.
Record t : Type := mk {
  success : bool;
  distance_km : option Q;
  distance_text : option string;
  duration_minutes : option Q;
  duration_text : option string;
  delivery_fee : FeeField;
  is_within_range : option bool;
  formatted_address : option string;
  message : option string;
  error : option string
}.

Definition failed (e : string) : t :=
  mk false None None None None FeeAbsent None None None (Some e).

(** [!deliveryCalculation.is_within_range] is false only on [true]. *)
Definition within_range (c : t) : bool :=
  match is_within_range c with
  | Some b => b
  | None => false
  end.
End DeliveryCalculation.

(** The JSON answered by /api/delivery/calculate. *)
Module DeliveryData.
Record t : Type := mk {
  success : bool;
  distance_km : option Q;
  distance_text : option string;
  duration_minutes : option Q;
  duration_text : option string;
  delivery_fee : FeeField;
  is_within_range : option bool;
  formatted_address : option string;
  message : option string;
  error : option string;
  detail : option string
}.
End DeliveryData.

(** The body of POST /api/orders. *)
Module OrderRequest.
Record Item : Type := mkItem {
  menu_id : string;
  name : string;
  nameEn : option string;
  price : float;
  quantity : Z;
  selectedMeat : option string;
  selectedAddOns : option (list string);
  notes : option string;
  itemTotal : float
}.

Inductive Details : Set :=
| DineIn (table_no : text)
| Pickup (name phone pickup_time : text)
| Delivery (name phone address : text).

Record t : Type := mk {
  restaurant_id : string;
  items : list Item;
  service_type : ServiceType;
  customer_details : Details;
  table_no : option text;
  customer_name : option text;
  customer_phone : option text;
  tax : float;
  delivery_fee : option float;        (* an undefined value leaves no key *)
  subtotal : float
}.
End OrderRequest.

Module Menu.

Record Location : Type := mkLocation {
  latitude : option Q;
  longitude : option Q
}.

Record Page : Type := mkPage {
  restaurant_id : string;             (* params.id *)
  restaurantId : string;              (* the id answered by the API *)
  originalMenus : list MenuItem.t;
  cart : list CartItem.t;
  showCart : bool;
  showItemModal : bool;
  serviceType : ServiceType;
  customerDetails : CustomerDetails.t;
  deliveryRates : list DeliveryRate.t;
  selectedDeliveryFee : option float;  (* a number; None when set to undefined *)
  restaurantLocation : Location;
  deliveryCalculation : option DeliveryCalculation.t
}.

Definition setCart (c : list CartItem.t) (p : Page) : Page :=
  mkPage (restaurant_id p) (restaurantId p) (originalMenus p) c
         (showCart p) (showItemModal p) (serviceType p) (customerDetails p)
         (deliveryRates p) (selectedDeliveryFee p) (restaurantLocation p)
         (deliveryCalculation p).

Definition setShowCart (b : bool) (p : Page) : Page :=
  mkPage (restaurant_id p) (restaurantId p) (originalMenus p) (cart p)
         b (showItemModal p) (serviceType p) (customerDetails p)
         (deliveryRates p) (selectedDeliveryFee p) (restaurantLocation p)
         (deliveryCalculation p).

Definition setShowItemModal (b : bool) (p : Page) : Page :=
  mkPage (restaurant_id p) (restaurantId p) (originalMenus p) (cart p)
         (showCart p) b (serviceType p) (customerDetails p)
         (deliveryRates p) (selectedDeliveryFee p) (restaurantLocation p)
         (deliveryCalculation p).

Definition setCustomerDetails (d : CustomerDetails.t) (p : Page) : Page :=
  mkPage (restaurant_id p) (restaurantId p) (originalMenus p) (cart p)
         (showCart p) (showItemModal p) (serviceType p) d
         (deliveryRates p) (selectedDeliveryFee p) (restaurantLocation p)
         (deliveryCalculation p).

Definition setSelectedDeliveryFee (fee : option float) (p : Page) : Page :=
  mkPage (restaurant_id p) (restaurantId p) (originalMenus p) (cart p)
         (showCart p) (showItemModal p) (serviceType p) (customerDetails p)
         (deliveryRates p) fee (restaurantLocation p)
         (deliveryCalculation p).

Definition setDeliveryCalculation (c : option DeliveryCalculation.t) (p : Page)
  : Page :=
  mkPage (restaurant_id p) (restaurantId p) (originalMenus p) (cart p)
         (showCart p) (showItemModal p) (serviceType p) (customerDetails p)
         (deliveryRates p) (selectedDeliveryFee p) (restaurantLocation p) c.

(** The [onChange] of the delivery address: the calculation is reset. *)
Definition changeAddress (value : text) (p : Page) : Page :=
  let d := customerDetails p in
  setDeliveryCalculation None
    (setCustomerDetails
       (CustomerDetails.mk (CustomerDetails.table_no d) (CustomerDetails.name d)
                           (CustomerDetails.phone d)
                           (CustomerDetails.pickup_time d) value)
       p).

(** How the request of [calculateDeliveryFee] ended. *)
Inductive DeliveryAnswer : Type :=
| DeliveryThrew
| DeliveryJson (data : DeliveryData.t).

Definition calculateDeliveryFee (answer : DeliveryAnswer) (p : Page) : Page :=
  if blank (CustomerDetails.address (customerDetails p))
  then setDeliveryCalculation
         (Some (DeliveryCalculation.failed "Please enter your delivery address"))
         p
  else if negb (number_truthy (latitude (restaurantLocation p)))
          || negb (number_truthy (longitude (restaurantLocation p)))
  then setDeliveryCalculation
         (Some (DeliveryCalculation.failed
                  "Restaurant location not configured. Please select delivery distance manually."))
         p
  else
    match answer with
    | DeliveryJson data =>
        if DeliveryData.success data
        then
          let stored :=
            setDeliveryCalculation
              (Some (DeliveryCalculation.mk
                       true
                       (DeliveryData.distance_km data)
                       (DeliveryData.distance_text data)
                       (DeliveryData.duration_minutes data)
                       (DeliveryData.duration_text data)
                       (DeliveryData.delivery_fee data)
                       (DeliveryData.is_within_range data)
                       (DeliveryData.formatted_address data)
                       (DeliveryData.message data)
                       None))
              p in
          match DeliveryData.is_within_range data, DeliveryData.delivery_fee data with
          | Some true, FeeNumber fee => setSelectedDeliveryFee (Some fee) stored
          | Some true, FeeAbsent => setSelectedDeliveryFee None stored
          | _, _ => stored
          end
        else
          setDeliveryCalculation
            (Some (DeliveryCalculation.failed
                     (match or_string (DeliveryData.error data)
                                      (DeliveryData.detail data) with
                      | Some e => if truthy e then e
                                  else "Failed to calculate delivery fee"
                      | None => "Failed to calculate delivery fee"
                      end)))
            p
    | DeliveryThrew =>
        setDeliveryCalculation
          (Some (DeliveryCalculation.failed
                   "Failed to calculate delivery. Please try again."))
          p
    end.

Section Cart.

(** [parseFloat] of the host language on the price texts of a menu. *)
Variable parseFloat : string -> float.

(** The price after the chosen meat: its price is added when a meat is
    chosen, found on the menu item, and priced other than 0 or free. *)
Definition withMeat (menu : MenuItem.t) (selectedMeat : option string)
    (totalPrice : float) : float :=
  match selectedMeat, MenuItem.meats menu with
  | Some sel, Some meats =>
      if truthy sel
      then match find (fun m => (Extra.label m =? sel)%string) meats with
           | Some meat =>
               if negb (Extra.price meat =? "0")%string
                  && negb (Extra.price meat =? "free")%string
               then (totalPrice + parseFloat (Extra.price meat))%float
               else totalPrice
           | None => totalPrice
           end
      else totalPrice
  | _, _ => totalPrice
  end.

(** One round of the loop over the chosen add-ons. *)
Definition withAddOn (menu : MenuItem.t) (totalPrice : float)
    (addOnName : string) : float :=
  match MenuItem.addOns menu with
  | Some addOns =>
      match find (fun a => (Extra.label a =? addOnName)%string) addOns with
      | Some addOn => (totalPrice + parseFloat (Extra.price addOn))%float
      | None => totalPrice
      end
  | None => totalPrice
  end.

Definition itemPrice (menu : MenuItem.t) (selectedMeat : option string)
    (selectedAddOns : option (list string)) : float :=
  let basePrice := parseFloat (MenuItem.price menu) in
  let totalPrice := withMeat menu selectedMeat basePrice in
  match selectedAddOns, MenuItem.addOns menu with
  | Some names, Some _ => fold_left (withAddOn menu) names totalPrice
  | _, _ => totalPrice
  end.

Definition newCartItem (originals : list MenuItem.t) (menu : MenuItem.t)
    (selectedMeat : option string) (selectedAddOns : option (list string))
    (notes : option string) : CartItem.t :=
  let originalMenu :=
    find (fun m => (MenuItem.menu_id m =? MenuItem.menu_id menu)%string)
         originals in
  let originalName :=
    match or_string (or_string (option_map MenuItem.name originalMenu)
                               (MenuItem.originalName menu))
                    (Some (MenuItem.name menu)) with
    | Some s => s
    | None => MenuItem.name menu
    end in
  let originalNameEn :=
    or_string (match originalMenu with
               | Some m => MenuItem.nameEn m
               | None => None
               end)
              (MenuItem.nameEn menu) in
  CartItem.mk (MenuItem.menu_id menu) originalName originalNameEn
              (itemPrice menu selectedMeat selectedAddOns) 1
              selectedMeat selectedAddOns notes.

Definition addToCart (menu : MenuItem.t) (selectedMeat : option string)
    (selectedAddOns : option (list string)) (notes : option string)
    (p : Page) : Page :=
  setShowCart true
    (setShowItemModal false
       (setCart (cart p ++ [newCartItem (originalMenus p) menu selectedMeat
                                        selectedAddOns notes])
                p)).

End Cart.

Definition updateQuantity (menuId : string) (delta : Z) (p : Page) : Page :=
  setCart
    (map (fun item =>
            if (CartItem.menu_id item =? menuId)%string
            then CartItem.mk (CartItem.menu_id item) (CartItem.name item)
                             (CartItem.nameEn item) (CartItem.price item)
                             (Z.max 1 (CartItem.quantity item + delta))
                             (CartItem.selectedMeat item)
                             (CartItem.selectedAddOns item) (CartItem.notes item)
            else item)
         (cart p))
    p.

Definition removeFromCart (menuId : string) (p : Page) : Page :=
  setCart (filter (fun item => negb (CartItem.menu_id item =? menuId)%string)
                  (cart p))
          p.

Definition getSubtotal (p : Page) : float :=
  fold_left (fun sum item =>
               (sum + CartItem.price item * of_Z (CartItem.quantity item))%float)
            (cart p) 0%float.

Definition getDeliveryFee (p : Page) : option float :=
  match serviceType p with
  | delivery => selectedDeliveryFee p
  | _ => Some 0%float
  end.

Definition getTotalPrice (p : Page) : float :=
  (getSubtotal p + toNumber (getDeliveryFee p))%float.

(** [restaurantLocation.latitude && restaurantLocation.longitude &&
    deliveryRates.length > 0] of [handlePlaceOrder] *)
Definition automaticCalculation (p : Page) : bool :=
  number_truthy (latitude (restaurantLocation p))
  && number_truthy (longitude (restaurantLocation p))
  && negb (Nat.eqb (List.length (deliveryRates p)) 0).

Definition quote : string := String (ascii_of_nat 34) EmptyString.

Definition calculateFirstMessage : string :=
  "Please click " ++ quote ++ "Calculate Delivery Fee" ++ quote
  ++ " to check if we can deliver to your address".

(** The request of [handlePlaceOrder]: the text of the alert it stops on,
    or the body it posts.  [nowISO] is [new Date().toISOString()]. *)
Definition handlePlaceOrder (nowISO : text) (p : Page)
  : string + OrderRequest.t :=
  let d := customerDetails p in
  let table_no := CustomerDetails.table_no d in
  let name := CustomerDetails.name d in
  let phone := CustomerDetails.phone d in
  let address := CustomerDetails.address d in
  let post :=
    inr (OrderRequest.mk
           (restaurant_id p)
           (map (fun item =>
                   OrderRequest.mkItem
                     (CartItem.menu_id item) (CartItem.name item)
                     (CartItem.nameEn item) (CartItem.price item)
                     (CartItem.quantity item) (CartItem.selectedMeat item)
                     (CartItem.selectedAddOns item) (CartItem.notes item)
                     (CartItem.price item * of_Z (CartItem.quantity item))%float)
                (cart p))
           (serviceType p)
           (match serviceType p with
            | dine_in => OrderRequest.DineIn table_no
            | pickup =>
                OrderRequest.Pickup name phone
                  (match CustomerDetails.pickup_time d with
                   | [] => nowISO
                   | t => t
                   end)
            | delivery => OrderRequest.Delivery name phone address
            end)
           (match serviceType p with dine_in => Some table_no | _ => None end)
           (match serviceType p with dine_in => None | _ => Some name end)
           (match serviceType p with dine_in => None | _ => Some phone end)
           0%float
           (match serviceType p with
            | delivery => getDeliveryFee p
            | _ => Some 0%float
            end)
           (getSubtotal p)) in
  match serviceType p with
  | dine_in =>
      if blank table_no then inl "Please enter table number" else post
  | pickup =>
      if blank name then inl "Please enter your name"
      else if blank phone then inl "Please enter your phone number"
      else post
  | delivery =>
      if blank name then inl "Please enter your name"
      else if blank phone then inl "Please enter your phone number"
      else if blank address then inl "Please enter delivery address"
      else if automaticCalculation p
      then match deliveryCalculation p with
           | None =>
               inl calculateFirstMessage
           | Some c =>
               if DeliveryCalculation.within_range c then post
               else inl "Sorry, your address is outside our delivery range"
           end
      else post
  end.

(** The [disabled] attribute of the Place Order button. *)
Definition placeOrderDisabled (p : Page) : bool :=
  match serviceType p with
  | delivery =>
      not_null (latitude (restaurantLocation p))
      && not_null (longitude (restaurantLocation p))
      && negb (Nat.eqb (List.length (deliveryRates p)) 0)
      && match deliveryCalculation p with
         | None => true
         | Some c => negb (DeliveryCalculation.within_range c)
         end
  | _ => false
  end.

(** The text drawn on the button. *)
Definition placeOrderLabel (p : Page) : string :=
  match serviceType p with
  | delivery =>
      if not_null (latitude (restaurantLocation p))
         && not_null (longitude (restaurantLocation p))
         && negb (Nat.eqb (List.length (deliveryRates p)) 0)
         && negb (not_null (deliveryCalculation p))
      then "Calculate Delivery Fee First"
      else match deliveryCalculation p with
           | Some c =>
               if negb (DeliveryCalculation.within_range c)
               then "Out of Delivery Range" else "Place Order"
           | None => "Place Order"
           end
  | _ => "Place Order"
  end.

(** A press on the button: a disabled button calls nothing; an enabled one
    calls [handlePlaceOrder], its only caller. *)
Inductive Submission : Type :=
| Blocked (label : string)
| Alerted (msg : string)
| Posted (body : OrderRequest.t).

Definition pressPlaceOrder (nowISO : text) (p : Page) : Submission :=
  if placeOrderDisabled p then Blocked (placeOrderLabel p)
  else match handlePlaceOrder nowISO p with
       | inl msg => Alerted msg
       | inr body => Posted body
       end.

(** What the customer can do on the page between load and submission. *)
Inductive Action : Type :=
| TypeTable (value : text)
| TypeName (value : text)
| TypePhone (value : text)
| TypePickupTime (value : text)
| TypeAddress (value : text)
| ChooseService (service : ServiceType)
| Calculate (answer : DeliveryAnswer)
| SelectFee (fee : float)
| AddLine (menu : MenuItem.t) (meat : option string)
          (addOns : option (list string)) (notes : option string)
| ChangeQuantity (menuId : string) (delta : Z)
| RemoveLine (menuId : string).

Definition setServiceType (service : ServiceType) (p : Page) : Page :=
  mkPage (restaurant_id p) (restaurantId p) (originalMenus p) (cart p)
         (showCart p) (showItemModal p) service (customerDetails p)
         (deliveryRates p) (selectedDeliveryFee p) (restaurantLocation p)
         (deliveryCalculation p).

Definition act (parseFloat : string -> float) (a : Action) (p : Page) : Page :=
  let d := customerDetails p in
  match a with
  | TypeTable v =>
      setCustomerDetails
        (CustomerDetails.mk v (CustomerDetails.name d) (CustomerDetails.phone d)
                            (CustomerDetails.pickup_time d)
                            (CustomerDetails.address d)) p
  | TypeName v =>
      setCustomerDetails
        (CustomerDetails.mk (CustomerDetails.table_no d) v
                            (CustomerDetails.phone d)
                            (CustomerDetails.pickup_time d)
                            (CustomerDetails.address d)) p
  | TypePhone v =>
      setCustomerDetails
        (CustomerDetails.mk (CustomerDetails.table_no d) (CustomerDetails.name d)
                            v (CustomerDetails.pickup_time d)
                            (CustomerDetails.address d)) p
  | TypePickupTime v =>
      setCustomerDetails
        (CustomerDetails.mk (CustomerDetails.table_no d) (CustomerDetails.name d)
                            (CustomerDetails.phone d) v
                            (CustomerDetails.address d)) p
  | TypeAddress v => changeAddress v p
  | ChooseService service => setServiceType service p
  | Calculate answer => calculateDeliveryFee answer p
  | SelectFee fee => setSelectedDeliveryFee (Some fee) p
  | AddLine menu meat addOns notes =>
      addToCart parseFloat menu meat addOns notes p
  | ChangeQuantity menuId delta => updateQuantity menuId delta p
  | RemoveLine menuId => removeFromCart menuId p
  end.

Definition run (parseFloat : string -> float) (actions : list Action) (p : Page)
  : Page :=
  fold_left (fun q a => act parseFloat a q) actions p.

(** *** The item modal *)

(** [addToCart] called from a callback of the render that saw the page
    [seen], while the page is [current]: the cart written is the cart of
    [seen] with the new line. *)
Definition addToCartFrom (parseFloat : string -> float) (seen : Page)
    (menu : MenuItem.t) (selectedMeat : option string)
    (selectedAddOns : option (list string)) (notes : option string)
    (current : Page) : Page :=
  setShowCart true
    (setShowItemModal false
       (setCart (cart seen ++ [newCartItem parseFloat (originalMenus seen) menu
                                           selectedMeat selectedAddOns notes])%list
                current)).

(** [x || undefined] on a string *)
Definition or_undefined (x : string) : option string :=
  if truthy x then Some x else None.

(** [handleAddToCart] of [ItemModal]: [onAddToCart] is called [quantity]
    times in one event, each call with the [addToCart] of the same render. *)
Definition handleAddToCart (parseFloat : string -> float) (menu : MenuItem.t)
    (quantity : Z) (selectedMeat : string) (selectedAddOns : list string)
    (notes : string) (p : Page) : Page :=
  Nat.iter (Z.to_nat quantity)
           (addToCartFrom parseFloat p menu
              (or_undefined selectedMeat)
              (match selectedAddOns with [] => None | _ :: _ => Some selectedAddOns end)
              (or_undefined notes))
           p.

(** *** Calling the staff *)

Record ServiceRequestBody : Type := mkServiceRequestBody {
  body_restaurant_id : string;
  body_table_no : text;
  body_request_type : string;
  body_message : option text
}.

(** The request of [handleServiceRequest]: the text of the alert it stops
    on, or the body it posts to /api/service-requests. *)
Definition handleServiceRequest (selectedRequestType : string)
    (customMessage : text) (p : Page) : string + ServiceRequestBody :=
  if negb (truthy selectedRequestType)
  then inl "กรุณาเลือกประเภทการร้องขอ"
  else if blank (CustomerDetails.table_no (customerDetails p))
  then inl "กรุณากรอกหมายเลขโต๊ะก่อนเรียกพนักงาน"
  else inr (mkServiceRequestBody
              (restaurantId p)
              (CustomerDetails.table_no (customerDetails p))
              selectedRequestType
              (match customMessage with
               | [] => None
               | _ :: _ => Some customMessage
               end)).

(** *** Loading the restaurant settings *)

(** [[...rates].sort((a, b) => a.distance_km - b.distance_km)]: the sort
    of the language is stable; an insertion from the right that puts a
    rate before the rates that are not nearer gives that order. *)
Fixpoint insertRate (r : DeliveryRate.t) (l : list DeliveryRate.t)
  : list DeliveryRate.t :=
  match l with
  | [] => [r]
  | x :: rest =>
      if Qle_bool (DeliveryRate.distance_km r) (DeliveryRate.distance_km x)
      then r :: x :: rest
      else x :: insertRate r rest
  end.

Definition sortRates (l : list DeliveryRate.t) : list DeliveryRate.t :=
  fold_right insertRate [] l.

Definition setDeliveryRates (rates : list DeliveryRate.t) (p : Page) : Page :=
  mkPage (restaurant_id p) (restaurantId p) (originalMenus p) (cart p)
         (showCart p) (showItemModal p) (serviceType p) (customerDetails p)
         rates (selectedDeliveryFee p) (restaurantLocation p)
         (deliveryCalculation p).

(** The part of [fetchMenus] that reads [data.delivery_rates]. *)
Definition loadDeliveryRates (delivery_rates : option (list DeliveryRate.t))
    (p : Page) : Page :=
  match delivery_rates with
  | Some ((_ :: _) as rates) =>
      match sortRates rates with
      | (first :: _) as sortedRates =>
          setSelectedDeliveryFee (Some (DeliveryRate.price first))
                                 (setDeliveryRates sortedRates p)
      | [] => p
      end
  | _ => p
  end.

(** *** The hash of the source text *)

(** The 32-bit signed integer a bitwise operator leaves. *)
Definition toInt32 (z : Z) : Z := (z + 2147483648) mod 4294967296 - 2147483648.

(** One round of the loop: [hash = ((hash << 5) - hash) + code;
    hash = hash & hash]. *)
Definition hashStep (hash : Z) (code : N) : Z :=
  toInt32 (toInt32 (toInt32 hash * 32) - hash + Z.of_N code).

(** [join('|')] on texts *)
Fixpoint joinBar (parts : list text) : text :=
  match parts with
  | [] => []
  | [s] => s
  | s :: rest => (s ++ 124%N :: joinBar rest)%list
  end.

Definition hexDigit (d : Z) : ascii :=
  ascii_of_nat (Z.to_nat (if d <? 10 then 48 + d else 87 + d)).

(** [n.toString(16)] for [0 <= n < 16^(fuel)] *)
Fixpoint toString16 (fuel : nat) (n : Z) (acc : string) : string :=
  match fuel with
  | O => acc
  | S f =>
      let acc' := String (hexDigit (n mod 16)) acc in
      if n / 16 =? 0 then acc' else toString16 f (n / 16) acc'
  end.

(** The number [Math.abs(hash)] that [generateSourceHash] prints in base
    16, on the texts it reads from a menu item ([name], [description] and
    [category], empty when falsy, then the names of the meats and of the
    add-ons). *)
Definition sourceHashNumber (name description category : text)
    (meats addOns : list text) : Z :=
  Z.abs (fold_left hashStep
                   (joinBar ([name; description; category] ++ meats ++ addOns)%list)
                   0).

Definition generateSourceHash (name description category : text)
    (meats addOns : list text) : string :=
  toString16 8 (sourceHashNumber name description category meats addOns) "".

End Menu.

(** ** The storage collaborator *)

Module Backend.



(** Modelled from the spec: the rows the storage collaborator holds, the
    single source of truth of section 5. *)
Definition Store : Type := list StatusPage.OrderRow.

(** Modelled from the spec: the row of an order id in the store. *)
Definition lookup (order_id : string) (store : Store)
  : option StatusPage.OrderRow :=
  find (fun r => (StatusPage.id r =? order_id)%string) store.

(** Modelled from the spec: the answer to the fetch of an order by its id:
    the row, whatever its status (orders are removed from active views,
    not from storage, section 3), or not found. *)
Definition getOrder (order_id : string) (store : Store) : StatusPage.Answer :=
  match lookup order_id store with
  | Some row => StatusPage.Ok true row
  | None => StatusPage.NotOk 404
  end.

(** Modelled from the spec: the row after a transition (section 4.1): the
    status, [updated_at], and [completed_at] when the target is
    completed. *)
Definition transitioned (now : Z) (target : OrderStatus)
    (r : StatusPage.OrderRow) : StatusPage.OrderRow :=
  StatusPage.mkRow
    (StatusPage.id r) (StatusPage.restaurant_id r) (StatusPage.table_no r)
    (StatusPage.items r) (StatusPage.subtotal r) (StatusPage.tax r)
    (StatusPage.delivery_fee r) (StatusPage.total_price r) target
    (StatusPage.service_type r) (StatusPage.customer_name r)
    (StatusPage.customer_phone r) (StatusPage.special_instructions r)
    (StatusPage.created_at r) now
    (match target with
     | completed => Some now
     | _ => StatusPage.completed_at r
     end).

(** Modelled from the spec: [setOrderStatus(id, status, actor) -> Order |
    InvalidTransition] of sections 4.1 and 6, without the roles: [None]
    when the order is unknown or the target is not an edge of the graph
    from its status, the store with the row transitioned otherwise. *)
Definition setOrderStatus (now : Z) (order_id : string) (target : OrderStatus)
    (store : Store) : option Store :=
  match lookup order_id store with
  | Some row =>
      if spec_edge (StatusPage.status row) target
      then Some (map (fun r => if (StatusPage.id r =? order_id)%string
                               then transitioned now target r else r)
                     store)
      else None
  | None => None
  end.

(** Modelled from the spec: a press on a transition button of the staff
    screen with the storage collaborator behind the request: the answer
    is ok exactly when [setOrderStatus] accepts. *)
Definition staffTransition (now : Z) (order_id : string) (target : OrderStatus)
    (w : Store * Staff.Page) : Store * Staff.Page :=
  match setOrderStatus now order_id target (fst w) with
  | Some store' =>
      (store', Staff.updateOrderStatus (Some true) order_id target (snd w))
  | None =>
      (fst w, Staff.updateOrderStatus (Some false) order_id target (snd w))
  end.

(** Modelled from the spec: the same press on the kitchen display. *)
Definition kitchenTransition (now : Z) (order_id : string)
    (target : OrderStatus) (w : Store * Kitchen.Page) : Store * Kitchen.Page :=
  match setOrderStatus now order_id target (fst w) with
  | Some store' =>
      (store', Kitchen.updateOrderStatus (Some true) order_id target (snd w))
  | None =>
      (fst w, Kitchen.updateOrderStatus (Some false) order_id target (snd w))
  end.

End Backend.

(** ** What the specification asks of a submission *)

Definition is_empty (s : text) : bool :=
  match s with
  | [] => true
  | _ :: _ => false
  end.

(** The restaurant has a geocoordinate and rate tiers. *)
Definition publishes_coordinate_and_tiers (p : Menu.Page) : bool :=
  not_null (Menu.latitude (Menu.restaurantLocation p))
  && not_null (Menu.longitude (Menu.restaurantLocation p))
  && negb (Nat.eqb (List.length (Menu.deliveryRates p)) 0).

(** The specification's conditions by service type, read on the page: a
    required field is empty, or a delivery lacks a successful calculation
    with [is_within_range] true where coordinate and tiers are there. *)
Definition violated (p : Menu.Page) : bool :=
  let d := Menu.customerDetails p in
  match Menu.serviceType p with
  | dine_in => is_empty (CustomerDetails.table_no d)
  | pickup =>
      is_empty (CustomerDetails.name d) || is_empty (CustomerDetails.phone d)
  | delivery =>
      is_empty (CustomerDetails.name d) || is_empty (CustomerDetails.phone d)
      || is_empty (CustomerDetails.address d)
      || publishes_coordinate_and_tiers p
         && match Menu.deliveryCalculation p with
            | Some c =>
                negb (DeliveryCalculation.success c
                      && DeliveryCalculation.within_range c)
            | None => true
            end
  end.

(** The message [msg] names a field of the page that is blank, or the
    state of the delivery calculation that stops the order. *)
Definition names_violation (p : Menu.Page) (msg : string) : Prop :=
  let d := Menu.customerDetails p in
  (msg = "Please enter table number"
   /\ Menu.serviceType p = dine_in /\ blank (CustomerDetails.table_no d) = true)
  \/ (msg = "Please enter your name"
      /\ Menu.serviceType p <> dine_in /\ blank (CustomerDetails.name d) = true)
  \/ (msg = "Please enter your phone number"
      /\ Menu.serviceType p <> dine_in /\ blank (CustomerDetails.phone d) = true)
  \/ (msg = "Please enter delivery address"
      /\ Menu.serviceType p = delivery
      /\ blank (CustomerDetails.address d) = true)
  \/ ((msg = Menu.calculateFirstMessage \/ msg = "Calculate Delivery Fee First")
      /\ Menu.serviceType p = delivery /\ Menu.deliveryCalculation p = None)
  \/ ((msg = "Sorry, your address is outside our delivery range"
       \/ msg = "Out of Delivery Range")
      /\ Menu.serviceType p = delivery
      /\ exists c, Menu.deliveryCalculation p = Some c
                   /\ DeliveryCalculation.within_range c = false).

(** The calculation held by the page, if any, is one that
    [calculateDeliveryFee] stored (the other writer stores null). *)
Definition calculation_stored (p : Menu.Page) : Prop :=
  match Menu.deliveryCalculation p with
  | None => True
  | Some c =>
      exists (answer : Menu.DeliveryAnswer) (q : Menu.Page),
        Menu.deliveryCalculation (Menu.calculateDeliveryFee answer q) = Some c
  end.



(** A cart line with its quantity moved by [delta], not below 1. *)
Definition moved (delta : Z) (item : CartItem.t) : CartItem.t :=
  CartItem.mk (CartItem.menu_id item) (CartItem.name item) (CartItem.nameEn item)
              (CartItem.price item) (Z.max 1 (CartItem.quantity item + delta))
              (CartItem.selectedMeat item) (CartItem.selectedAddOns item)
              (CartItem.notes item).

(** ** Views and the events that reach them *)

(** The order id an event is about. *)
Definition event_id (e : ChangeEvent Order.t) : string :=
  match e with
  | INSERT new => Order.id new
  | UPDATE new => Order.id new
  | DELETE old_id => old_id
  end.

(** The view holds an order with this id. *)
Definition held (i : string) (view : list Order.t) : bool :=
  existsb (fun o => (Order.id o =? i)%string) view.

(** No order of the view is completed or cancelled. *)
Definition no_terminal (view : list Order.t) : bool :=
  forallb (fun o => negb (completed_or_cancelled (Order.status o))) view.

(** The view without the orders of id [i], the others in their order. *)
Definition without (i : string) (view : list Order.t) : list Order.t :=
  filter (fun o => negb (Order.id o =? i)%string) view.

(** The orders of a view that are neither completed nor cancelled. *)
Definition active (view : list Order.t) : list Order.t :=
  filter (fun o => negb (completed_or_cancelled (Order.status o))) view.

(** The pending requests of a view that do not have the id [i]. *)
Definition pending_others (i : string) (view : list ServiceRequest.t) : nat :=
  List.length
    (filter (fun q => RequestStatus.eqb (ServiceRequest.status q)
                                        RequestStatus.pending
                      && negb (ServiceRequest.id q =? i)%string)
            view).

(** The fetch of the order-status page did not end in a successful answer. *)
Definition fetch_failed (a : StatusPage.Answer) : bool :=
  match a with
  | StatusPage.Ok true _ => false
  | _ => true
  end.

(** The polynomial in 31 over the code units of a text, without
    wrap-around. *)
Definition polynomial31 (sourceText : text) : Z :=
  fold_left (fun h c => 31 * h + Z.of_N c) sourceText 0.

(** ** Sample data *)

Definition sampleItem : OrderItem.t :=
  OrderItem.mk "m1" "Pad Thai" (Some "Pad Thai") 2 (25 # 2) None None None.

Definition sampleOrder (st : OrderStatus) (stamp : Z) : Order.t :=
  Order.mk "o1" (Some "5") [sampleItem] st dine_in None 1000 None 25 stamp.

Definition otherOrder : Order.t :=
  Order.mk "o2" (Some "7") [sampleItem] ready dine_in None 1500 None 25 1500.

Definition sampleSession (expiry : Z) : POSSession.t :=
  POSSession.mk "s-1" "Noi" "waiter" "r-1" "Baan Thai" "baan-thai" (Some "th")
                expiry.

Definition staffPage (view : list Order.t) : Staff.Page :=
  Staff.mkPage (Some (sampleSession 100000)) ThisPage
               (Some (sampleSession 100000)) view [] Staff.orders_tab 70
               true true true true [].

Definition kitchenPage (view : list Order.t) : Kitchen.Page :=
  Kitchen.mkPage (Some (sampleSession 100000)) ThisPage
                 (Some (sampleSession 100000)) view 70
                 true true true true true true [].

Definition pendingRow : RequestRow.t :=
  RequestRow.mk "q1" RequestStatus.pending None None None 900.

Definition sampleRow (st : OrderStatus) : StatusPage.OrderRow :=
  StatusPage.mkRow "o1" "r-1" (Some "5") [sampleItem] 25 0 0 25 st
                   (Some dine_in) None None None 1000 5000 (Some 5000).

Definition otherRow : StatusPage.OrderRow :=
  StatusPage.mkRow "o2" "r-1" (Some "7") [sampleItem] 25 0 0 25 ready
                   (Some dine_in) None None None 1500 1500 None.

Definition sampleStore : Backend.Store := [sampleRow ready; otherRow].

Definition details (table name phone address : string) : CustomerDetails.t :=
  CustomerDetails.mk (utf16 table) (utf16 name) (utf16 phone) [] (utf16 address).

Definition line (menu_id : string) (price : float) (quantity : Z)
    (meat : option string) : CartItem.t :=
  CartItem.mk menu_id "Pad Thai" None price quantity meat None None.

Definition twoLines : list CartItem.t :=
  [line "m1" 12.5%float 1 (Some "Chicken"); line "m2" 7.5%float 1 None].

Definition tiers : list DeliveryRate.t :=
  [DeliveryRate.mk "t1" 3 5%float; DeliveryRate.mk "t2" 8 9%float].

Definition menuPage (service : ServiceType) (d : CustomerDetails.t)
    (lat lng : option Q) (calc : option DeliveryCalculation.t) : Menu.Page :=
  Menu.mkPage "baan-thai" "r-1" [] twoLines true false service d tiers
              (Some 5%float) (Menu.mkLocation lat lng) calc.

Definition outOfRange : DeliveryData.t :=
  DeliveryData.mk true (Some 12%Q) None None None FeeNull (Some false) None
                  None None None.


Definition sampleRequest (i : string) (st : RequestStatus.t) : ServiceRequest.t :=
  ServiceRequest.mk i "12" call_waiter None st 1000.

Definition loginPage (typed : string) : Login.Page :=
  Login.mkPage None ThisPage
               (Some (Login.mkRestaurant "r-1" "Baan Thai" "baan-thai" (Some "th")))
               typed "".

Definition waiter : Login.StaffRow := Login.mkStaff "s-1" "Noi" "waiter".

(** ** The model on small inputs *)

Example trim_samples :
  trim (utf16 "  5 ") = utf16 "5"
  /\ blank (utf16 "   ") = true
  /\ blank [160; 9; 8232]%N = true
  /\ blank (utf16 " 12 Main St ") = false.
Proof.
  repeat split.
Qed.

Example subtotal_sample :
  Menu.getSubtotal (menuPage dine_in (details "5" "" "" "") None None None)
  = 20%float
  /\ Menu.getTotalPrice
       (menuPage delivery (details "" "Mali" "021" "9 Far Road") None None None)
     = 25%float.
Proof.
  split; reflexivity.
Qed.

Example subtotal_rounds_as_binary64 :
  Menu.getSubtotal
    (Menu.setCart
       [line "a" 0.1%float 1 None; line "b" 0.2%float 1 None;
        line "c" 0.3%float 1 None]
       (menuPage dine_in (details "5" "" "" "") None None None))
  = 0.6000000000000001%float.
Proof.
  reflexivity.
Qed.

Example kitchen_update_sample :
  Kitchen.orders (Kitchen.channel (UPDATE (sampleOrder completed 9))
                    (kitchenPage [sampleOrder ready 8; otherOrder]))
  = [otherOrder].
Proof.
  reflexivity.
Qed.

Example estimated_sample :
  StatusPage.calculateEstimatedTime 301000 (sampleRow pending)
  = StatusPage.Minutes 10
  /\ StatusPage.calculateEstimatedTime 301000 (sampleRow confirmed)
     = StatusPage.AlmostReady.
Proof.
  split; reflexivity.
Qed.

(** ** Lists under the handlers *)

Lemma filter_twice {A : Type} (f : A -> bool) (l : list A) :
  filter f (filter f l) = filter f l.
Proof.
  induction l as [|a l IH]; simpl; [reflexivity|].
  destruct (f a) eqn:E; simpl; rewrite ?E, IH; reflexivity.
Qed.

Lemma replace_after_replace (n1 n2 : Order.t) (l : list Order.t) :
  Order.id n1 = Order.id n2 ->
  map (fun order => if (Order.id order =? Order.id n1)%string then n1 else order)
      (map (fun order => if (Order.id order =? Order.id n2)%string then n2 else order)
           l)
  = map (fun order => if (Order.id order =? Order.id n1)%string then n1 else order)
        l.
Proof.
  intros E. rewrite map_map. apply map_ext. intros a. rewrite <- E.
  destruct (Order.id a =? Order.id n1)%string eqn:Ea; [|rewrite Ea; reflexivity].
  rewrite E, String.eqb_refl. reflexivity.
Qed.



Lemma kitchen_update_twice (n : Order.t) (l : list Order.t) :
  filter (fun o => negb (completed_or_cancelled (Order.status o)))
    (map (fun order => if (Order.id order =? Order.id n)%string then n else order)
       (filter (fun o => negb (completed_or_cancelled (Order.status o)))
          (map (fun order => if (Order.id order =? Order.id n)%string then n else order)
             l)))
  = filter (fun o => negb (completed_or_cancelled (Order.status o)))
      (map (fun order => if (Order.id order =? Order.id n)%string then n else order)
         l).
Proof.
  induction l as [|a l IH]; simpl; [reflexivity|].
  destruct (Order.id a =? Order.id n)%string eqn:Ea; simpl.
  - destruct (completed_or_cancelled (Order.status n)) eqn:Hn; simpl.
    + exact IH.
    + rewrite String.eqb_refl, Hn. simpl. rewrite IH. reflexivity.
  - destruct (completed_or_cancelled (Order.status a)) eqn:Ha; simpl.
    + exact IH.
    + rewrite Ea, Ha. simpl. rewrite IH. reflexivity.
Qed.

(** ** Updates and the server timestamp *)




(** ** The same event twice *)

(** C2, as stated, fails: an INSERT for an id the view already holds adds a
    second entry, and the same INSERT twice gives a view other than the
    INSERT once. *)
Lemma insert_twice_adds_two_entries :
  let new := sampleOrder pending 1 in
  Staff.orders (Staff.ordersChannel (INSERT new)
                  (Staff.ordersChannel (INSERT new) (staffPage [])))
  = [new; new]
  /\ Staff.orders (Staff.ordersChannel (INSERT new)
                     (Staff.ordersChannel (INSERT new) (staffPage [])))
     <> Staff.orders (Staff.ordersChannel (INSERT new) (staffPage []))
  /\ Kitchen.orders (Kitchen.channel (INSERT new)
                       (Kitchen.channel (INSERT new) (kitchenPage [])))
     <> Kitchen.orders (Kitchen.channel (INSERT new) (kitchenPage [])).
Proof.
  simpl. repeat split; intros H; discriminate H.
Qed.

(** C2, amended: for every UPDATE or DELETE event and every page, the
    event applied twice leaves the page that the event applied once
    leaves; an INSERT event is put at the head of the view without a look
    at the ids held, so that applied twice it adds two entries. *)
Theorem update_delete_idempotent_insert_prepends :
  forall (ps : Staff.Page) (pk : Kitchen.Page),
    (forall e : ChangeEvent Order.t,
        is_insert e = false ->
        Staff.ordersChannel e (Staff.ordersChannel e ps) = Staff.ordersChannel e ps
        /\ Kitchen.channel e (Kitchen.channel e pk) = Kitchen.channel e pk)
    /\ (forall new : Order.t,
           Staff.orders (Staff.ordersChannel (INSERT new)
                           (Staff.ordersChannel (INSERT new) ps))
           = new :: new :: Staff.orders ps
           /\ Kitchen.orders (Kitchen.channel (INSERT new)
                                (Kitchen.channel (INSERT new) pk))
              = new :: new :: Kitchen.orders pk).
Proof.
  intros ps pk. split.
  - intros [new|new|old] He; [discriminate He| |]; split.
    + unfold Staff.ordersChannel.
      destruct (completed_or_cancelled (Order.status new));
        unfold Staff.setOrders; simpl; f_equal.
      * apply filter_twice.
      * apply replace_after_replace; reflexivity.
    + unfold Kitchen.channel, Kitchen.setOrders; simpl; f_equal.
      apply kitchen_update_twice.
    + unfold Staff.ordersChannel, Staff.setOrders; simpl; f_equal.
      apply filter_twice.
    + unfold Kitchen.channel, Kitchen.setOrders; simpl; f_equal.
      apply filter_twice.
  - intros new. split; reflexivity.
Qed.

Lemma update_delete_idempotent_insert_prepends_witness :
  Staff.ordersChannel (UPDATE (sampleOrder confirmed 2))
    (Staff.ordersChannel (UPDATE (sampleOrder confirmed 2))
       (staffPage [sampleOrder pending 1; otherOrder]))
  = staffPage [sampleOrder confirmed 2; otherOrder]
  /\ Kitchen.channel (DELETE "o1")
       (Kitchen.channel (DELETE "o1")
          (kitchenPage [sampleOrder pending 1; otherOrder]))
     = kitchenPage [otherOrder].
Proof.
  split.
  - rewrite (proj1 (proj1 (update_delete_idempotent_insert_prepends
                             (staffPage [sampleOrder pending 1; otherOrder])
                             (kitchenPage []))
                          (UPDATE (sampleOrder confirmed 2)) eq_refl)).
    reflexivity.
  - rewrite (proj2 (proj1 (update_delete_idempotent_insert_prepends
                             (staffPage [])
                             (kitchenPage [sampleOrder pending 1; otherOrder]))
                          (DELETE "o1") eq_refl)).
    reflexivity.
Defined.

(** ** The new-order alert *)

Lemma staff_receive_alerts (events : list (ChangeEvent Order.t)) :
  forall p : Staff.Page,
    order_alerts (Staff.played (Staff.receive events p))
    = (inserts events + order_alerts (Staff.played p))%nat.
Proof.
  induction events as [|e events IH]; intros p; [reflexivity|].
  unfold Staff.receive in *. simpl. rewrite IH.
  destruct e as [new|new|old]; unfold inserts; simpl.
  - unfold order_alerts. simpl. lia.
  - destruct (completed_or_cancelled (Order.status new)); reflexivity.
  - reflexivity.
Qed.

Lemma kitchen_receive_alerts (events : list (ChangeEvent Order.t)) :
  forall p : Kitchen.Page,
    order_alerts (Kitchen.played (Kitchen.receive events p))
    = (inserts events + order_alerts (Kitchen.played p))%nat.
Proof.
  induction events as [|e events IH]; intros p; [reflexivity|].
  unfold Kitchen.receive in *. simpl. rewrite IH.
  destruct e as [new|new|old]; unfold inserts; simpl.
  - unfold order_alerts. simpl. lia.
  - reflexivity.
  - reflexivity.
Qed.

(** C3, as stated, fails: two INSERT events carrying the same new order
    call [playNotification] twice on the staff screen and twice on the
    kitchen display, each call with its tone and its vibration. *)
Lemma duplicate_insert_alerts_twice :
  let new := sampleOrder pending 1 in
  order_alerts (Staff.played (Staff.receive [INSERT new; INSERT new]
                                            (staffPage [])))
  <> 1%nat
  /\ order_alerts (Kitchen.played (Kitchen.receive [INSERT new; INSERT new]
                                                   (kitchenPage [])))
     <> 1%nat
  /\ Staff.played (Staff.receive [INSERT new; INSERT new] (staffPage []))
     = [mkPlayed order_alert (Some (WebAudio [800; 1000])) (Some [200; 100; 200]);
        mkPlayed order_alert (Some (WebAudio [800; 1000])) (Some [200; 100; 200])].
Proof.
  simpl. repeat split; intros H; discriminate H.
Qed.

(** C3, amended: the kitchen and staff screens call the new-order alert
    exactly once per INSERT event received, whatever order id the event
    carries: over any sequence of order events the number of new-order
    alerts grows by the number of INSERT events in it (two for two
    duplicate INSERT events). *)
Theorem one_alert_per_insert_event :
  forall (events : list (ChangeEvent Order.t))
         (ps : Staff.Page) (pk : Kitchen.Page),
    order_alerts (Staff.played (Staff.receive events ps))
    = (inserts events + order_alerts (Staff.played ps))%nat
    /\ order_alerts (Kitchen.played (Kitchen.receive events pk))
       = (inserts events + order_alerts (Kitchen.played pk))%nat.
Proof.
  intros events ps pk. split.
  - apply staff_receive_alerts.
  - apply kitchen_receive_alerts.
Qed.

(** ** The action surfaces and the status graph *)

(** C4, as stated, fails: under a pending order the staff screen draws a
    button that requests completed, which is neither the next step of
    pending nor an edge of the graph. *)
Lemma staff_completes_from_pending :
  In completed (Staff.actions pending)
  /\ spec_next pending <> Some completed
  /\ spec_edge pending completed = false.
Proof.
  simpl. repeat split; [left; reflexivity | intros H; discriminate H].
Qed.

(** C4, amended: the kitchen display requests exactly the next forward
    step of an order (pending, confirmed, preparing, ready, completed) and
    nothing for a completed or cancelled one; the staff screen requests
    completed from every status other than completed, one step from ready
    and a direct jump from pending, confirmed or preparing; neither screen
    requests ready for a pending order. *)
Theorem action_surfaces :
  (forall s : OrderStatus,
      Kitchen.actions s = match spec_next s with
                          | Some t => [t]
                          | None => []
                          end)
  /\ (forall s : OrderStatus,
         Staff.actions s = if OrderStatus_eqb s completed then [] else [completed])
  /\ ~ In ready (Kitchen.actions pending)
  /\ ~ In ready (Staff.actions pending).
Proof.
  repeat split.
  - intros s; destruct s; reflexivity.
  - intros s; destruct s; reflexivity.
  - simpl. intros [H|[]]; discriminate H.
  - simpl. intros [H|[]]; discriminate H.
Qed.

(** ** Orders that reach completed or cancelled *)

Lemma held_without (i : string) (l : list Order.t) :
  held i (without i l) = false.
Proof.
  unfold held, without. induction l as [|a l IH]; simpl.
  - reflexivity.
  - destruct (Order.id a =? i)%string eqn:E; simpl.
    + exact IH.
    + rewrite E. exact IH.
Qed.

Lemma held_active (i : string) (l : list Order.t) :
  held i l = false -> held i (active l) = false.
Proof.
  unfold held, active. induction l as [|a l IH]; simpl.
  - reflexivity.
  - intros H. apply orb_false_iff in H. destruct H as [Ha Hl].
    destruct (negb (completed_or_cancelled (Order.status a))); simpl.
    + rewrite Ha. simpl. apply IH. exact Hl.
    + apply IH. exact Hl.
Qed.

Lemma terminal_update_is_removal (o : Order.t) (l : list Order.t) :
  completed_or_cancelled (Order.status o) = true ->
  active (map (fun order => if (Order.id order =? Order.id o)%string
                            then o else order) l)
  = active (without (Order.id o) l).
Proof.
  intros Ho. unfold active, without. induction l as [|a l IH]; simpl.
  - reflexivity.
  - destruct (Order.id a =? Order.id o)%string eqn:E; simpl.
    + rewrite Ho. simpl. exact IH.
    + destruct (negb (completed_or_cancelled (Order.status a))); simpl.
      * rewrite IH. reflexivity.
      * exact IH.
Qed.

Lemma lookup_id (i : string) (store : Backend.Store)
    (row : StatusPage.OrderRow) :
  Backend.lookup i store = Some row -> StatusPage.id row = i.
Proof.
  unfold Backend.lookup. intros H. apply find_some in H.
  destruct H as [_ H]. apply String.eqb_eq. exact H.
Qed.

Lemma lookup_transitioned (now : Z) (i : string) (target : OrderStatus)
    (store : Backend.Store) :
  Backend.lookup i
    (map (fun r => if (StatusPage.id r =? i)%string
                   then Backend.transitioned now target r else r) store)
  = option_map (Backend.transitioned now target) (Backend.lookup i store).
Proof.
  unfold Backend.lookup. induction store as [|a l IH]; simpl.
  - reflexivity.
  - destruct (StatusPage.id a =? i)%string eqn:E; simpl.
    + rewrite E. reflexivity.
    + rewrite E. exact IH.
Qed.

Lemma accepted_transition (now : Z) (i : string) (target : OrderStatus)
    (store store' : Backend.Store) :
  Backend.setOrderStatus now i target store = Some store' ->
  exists old,
    Backend.lookup i store = Some old
    /\ spec_edge (StatusPage.status old) target = true
    /\ Backend.lookup i store' = Some (Backend.transitioned now target old).
Proof.
  unfold Backend.setOrderStatus. intros H.
  destruct (Backend.lookup i store) as [old|] eqn:L; [|discriminate H].
  destruct (spec_edge (StatusPage.status old) target) eqn:E; [|discriminate H].
  exists old. split; [reflexivity|]. split; [exact E|].
  injection H as H. subst store'. rewrite lookup_transitioned, L. reflexivity.
Qed.

Lemma kitchen_terminal_test (target : OrderStatus) :
  OrderStatus_eqb target completed || OrderStatus_eqb target cancelled
  = completed_or_cancelled target.
Proof. destruct target; reflexivity. Qed.

(** C5: when the storage collaborator accepts the transition of an order
    to completed or cancelled, the active-orders view of the staff screen
    becomes the view without that order, and that of the kitchen display
    the non-terminal orders of the view without it, both through the
    UPDATE event and through the local transition action; the other
    orders stay in their order.  The views then hold no order of that id.
    The order stays in storage: the fetch by its id answers the row with
    the new status, and the order-status page stores and draws it. *)
Theorem terminal_order_leaves_active_views :
  forall (now later : Z) (order_id : string) (target : OrderStatus)
         (store store' : Backend.Store) (o : Order.t)
         (ps : Staff.Page) (pk : Kitchen.Page) (sp : StatusPage.Page),
    completed_or_cancelled target = true ->
    Backend.setOrderStatus now order_id target store = Some store' ->
    Order.id o = order_id ->
    Order.status o = target ->
    (Staff.orders (Staff.ordersChannel (UPDATE o) ps)
     = without order_id (Staff.orders ps)
     /\ Kitchen.orders (Kitchen.channel (UPDATE o) pk)
        = active (without order_id (Kitchen.orders pk))
     /\ Backend.staffTransition now order_id target (store, ps)
        = (store', Staff.setOrders (without order_id) ps)
     /\ Backend.kitchenTransition now order_id target (store, pk)
        = (store', Kitchen.setOrders (without order_id) pk))
    /\ (held order_id (Staff.orders (Staff.ordersChannel (UPDATE o) ps)) = false
        /\ held order_id (Kitchen.orders (Kitchen.channel (UPDATE o) pk))
           = false
        /\ held order_id
             (Staff.orders
                (snd (Backend.staffTransition now order_id target (store, ps))))
           = false
        /\ held order_id
             (Kitchen.orders
                (snd (Backend.kitchenTransition now order_id target
                                                (store, pk))))
           = false)
    /\ exists row,
         Backend.getOrder order_id store' = StatusPage.Ok true row
         /\ StatusPage.id row = order_id
         /\ StatusPage.status row = target
         /\ StatusPage.order
              (StatusPage.fetchOrder later (Backend.getOrder order_id store')
                                     sp)
            = Some row
         /\ (StatusPage.error sp = "" ->
             StatusPage.screen
               (StatusPage.fetchOrder later (Backend.getOrder order_id store')
                                      sp)
             = StatusPage.StatusScreen).
Proof.
  intros now later order_id target store store' o ps pk sp Ht Hs Hid Hst.
  assert (E1 : Staff.orders (Staff.ordersChannel (UPDATE o) ps)
               = without order_id (Staff.orders ps)).
  { unfold Staff.ordersChannel. rewrite Hst, Ht, Hid. reflexivity. }
  assert (E2 : Kitchen.orders (Kitchen.channel (UPDATE o) pk)
               = active (without order_id (Kitchen.orders pk))).
  { simpl. rewrite <- Hid. apply terminal_update_is_removal.
    rewrite Hst. exact Ht. }
  assert (E3 : Backend.staffTransition now order_id target (store, ps)
               = (store', Staff.setOrders (without order_id) ps)).
  { unfold Backend.staffTransition. simpl fst. simpl snd. rewrite Hs.
    unfold Staff.updateOrderStatus. rewrite Ht. reflexivity. }
  assert (E4 : Backend.kitchenTransition now order_id target (store, pk)
               = (store', Kitchen.setOrders (without order_id) pk)).
  { unfold Backend.kitchenTransition. simpl fst. simpl snd. rewrite Hs.
    unfold Kitchen.updateOrderStatus.
    rewrite kitchen_terminal_test, Ht. reflexivity. }
  split; [|split].
  - split; [exact E1|]. split; [exact E2|]. split; [exact E3|exact E4].
  - rewrite E1, E2, E3, E4. simpl.
    split; [apply held_without|].
    split; [apply held_active; apply held_without|].
    split; apply held_without.
  - destruct (accepted_transition now order_id target store store' Hs)
      as [old [Hold [_ Hnew]]].
    exists (Backend.transitioned now target old).
    unfold Backend.getOrder. rewrite Hnew.
    split; [reflexivity|].
    split; [simpl; apply (lookup_id order_id store old Hold)|].
    split; [reflexivity|].
    split; [reflexivity|].
    intros He. unfold StatusPage.screen. simpl. rewrite He. reflexivity.
Qed.

Lemma terminal_order_leaves_active_views_witness :
  Staff.orders (Staff.ordersChannel (UPDATE (sampleOrder completed 9))
                  (staffPage [sampleOrder ready 8; otherOrder]))
  = [otherOrder]
  /\ Backend.kitchenTransition 7000 "o1" completed
       (sampleStore, kitchenPage [sampleOrder ready 8; otherOrder])
     = ([Backend.transitioned 7000 completed (sampleRow ready); otherRow],
        kitchenPage [otherOrder])
  /\ exists row,
       Backend.getOrder "o1"
         [Backend.transitioned 7000 completed (sampleRow ready); otherRow]
       = StatusPage.Ok true row
       /\ StatusPage.status row = completed.
Proof.
  pose proof (terminal_order_leaves_active_views
                7000 8000 "o1" completed sampleStore
                [Backend.transitioned 7000 completed (sampleRow ready);
                 otherRow]
                (sampleOrder completed 9)
                (staffPage [sampleOrder ready 8; otherOrder])
                (kitchenPage [sampleOrder ready 8; otherOrder])
                StatusPage.initial
                eq_refl eq_refl eq_refl eq_refl) as H.
  destruct H as [[H1 [_ [_ H4]]] [_ [row [Hr [_ [Hst _]]]]]].
  split; [exact H1|]. split; [exact H4|].
  exists row. split; [exact Hr|exact Hst].
Defined.

(** ** Service requests: what a transition writes *)

(** C8, as stated, fails: a pending request completed by staff member s-1
    gets [completed_at] and [updated_at], and no column of the row holds
    the identity of s-1; the update object has no identity key for
    completed. *)
Lemma completion_stamps_no_identity :
  let w := Staff.updateRequestStatus 2000 Staff.Updated "q1"
             RequestStatus.completed (staffPage [], [pendingRow]) in
  snd w = [RequestRow.mk "q1" RequestStatus.completed None None (Some 2000) 2000]
  /\ RequestUpdate.acknowledged_by
       (Staff.requestUpdate (Some (sampleSession 100000)) 2000
                            RequestStatus.completed)
     = None
  /\ ~ (exists r, In r (snd w) /\ RequestRow.acknowledged_by r = Some "s-1").
Proof.
  simpl. repeat split.
  intros [r [[H|[]] Hr]]. subst r. discriminate Hr.
Qed.

(** C8, amended: on a request row, a transition to acknowledged writes the
    acting staff member's id to [acknowledged_by] and the time to
    [acknowledged_at]; a transition to completed writes the time to
    [completed_at] and leaves [acknowledged_by] and [acknowledged_at] as
    they were; both write the status and [updated_at]. *)
Theorem request_update_stamps :
  forall (now : Z) (s : POSSession.t) (p : Staff.Page)
         (table : list RequestRow.t) (r : RequestRow.t),
    Staff.session p = Some s ->
    In r table ->
    In (RequestRow.mk (RequestRow.id r) RequestStatus.acknowledged
                      (Some (POSSession.staffId s)) (Some now)
                      (RequestRow.completed_at r) now)
       (snd (Staff.updateRequestStatus now Staff.Updated (RequestRow.id r)
                                       RequestStatus.acknowledged (p, table)))
    /\ In (RequestRow.mk (RequestRow.id r) RequestStatus.completed
                         (RequestRow.acknowledged_by r)
                         (RequestRow.acknowledged_at r)
                         (Some now) now)
          (snd (Staff.updateRequestStatus now Staff.Updated (RequestRow.id r)
                                          RequestStatus.completed (p, table))).
Proof.
  intros now s p table r Hs Hr. unfold Staff.updateRequestStatus. simpl.
  unfold RequestRow.update, Staff.requestUpdate. rewrite Hs. simpl. split.
  - apply in_map_iff. exists r. rewrite String.eqb_refl. split; [reflexivity|exact Hr].
  - apply in_map_iff. exists r. rewrite String.eqb_refl. split; [|exact Hr].
    destruct (RequestRow.acknowledged_by r), (RequestRow.acknowledged_at r);
      reflexivity.
Qed.

Lemma request_update_stamps_witness :
  In (RequestRow.mk "q1" RequestStatus.acknowledged (Some "s-1") (Some 2000)
                    None 2000)
     (snd (Staff.updateRequestStatus 2000 Staff.Updated "q1"
                                     RequestStatus.acknowledged
                                     (staffPage [], [pendingRow]))).
Proof.
  exact (proj1 (request_update_stamps 2000 (sampleSession 100000) (staffPage [])
                                      [pendingRow] pendingRow eq_refl
                                      (or_introl eq_refl))).
Defined.

(** ** The expiry of a session *)

Lemma staff_channel_keeps_subscription (e : ChangeEvent Order.t) (p : Staff.Page) :
  Staff.subscribed (Staff.ordersChannel e p) = Staff.subscribed p.
Proof.
  destruct e as [new|new|old]; simpl; try reflexivity.
  unfold Staff.ordersChannel.
  destruct (completed_or_cancelled (Order.status new)); reflexivity.
Qed.

Lemma kitchen_channel_keeps_subscription (e : ChangeEvent Order.t) (p : Kitchen.Page) :
  Kitchen.subscribed (Kitchen.channel e p) = Kitchen.subscribed p.
Proof.
  destruct e as [new|new|old]; reflexivity.
Qed.

Lemma staff_subscribed_receives (events : list (Z * ChangeEvent Order.t)) :
  forall p : Staff.Page,
    Staff.subscribed p = true ->
    Staff.deliverAll events p = Staff.receive (map snd events) p.
Proof.
  induction events as [|[t e] events IH]; intros p Hp; [reflexivity|].
  unfold Staff.deliverAll, Staff.receive in *. simpl.
  unfold Staff.deliver at 2. rewrite Hp. apply IH.
  rewrite staff_channel_keeps_subscription. exact Hp.
Qed.

Lemma kitchen_subscribed_receives (events : list (Z * ChangeEvent Order.t)) :
  forall p : Kitchen.Page,
    Kitchen.subscribed p = true ->
    Kitchen.deliverAll events p = Kitchen.receive (map snd events) p.
Proof.
  induction events as [|[t e] events IH]; intros p Hp; [reflexivity|].
  unfold Kitchen.deliverAll, Kitchen.receive in *. simpl.
  unfold Kitchen.deliver at 2. rewrite Hp. apply IH.
  rewrite kitchen_channel_keeps_subscription. exact Hp.
Qed.

Lemma staff_unsubscribed_ignores (events : list (Z * ChangeEvent Order.t)) :
  forall p : Staff.Page,
    Staff.subscribed p = false -> Staff.deliverAll events p = p.
Proof.
  induction events as [|[t e] events IH]; intros p Hp; [reflexivity|].
  unfold Staff.deliverAll in *. simpl. unfold Staff.deliver at 2.
  rewrite Hp. apply IH. exact Hp.
Qed.

Lemma kitchen_unsubscribed_ignores (events : list (Z * ChangeEvent Order.t)) :
  forall p : Kitchen.Page,
    Kitchen.subscribed p = false -> Kitchen.deliverAll events p = p.
Proof.
  induction events as [|[t e] events IH]; intros p Hp; [reflexivity|].
  unfold Kitchen.deliverAll in *. simpl. unfold Kitchen.deliver at 2.
  rewrite Hp. apply IH. exact Hp.
Qed.

(** C9, as stated, fails: a session that expires at 1000, checked when the
    page is mounted at 500, still has the screens apply an INSERT that
    arrives at 2000, and nothing sends them to the login screen. *)
Lemma expired_session_keeps_receiving :
  let ps := Staff.checkSession 500
              (Staff.initial (Some (sampleSession 1000)) true true) in
  let pk := Kitchen.checkSession 500
              (Kitchen.initial (Some (sampleSession 1000)) true true true true) in
  POSSession.expires (sampleSession 1000) < 2000
  /\ Staff.orders (Staff.deliver 2000 (INSERT otherOrder) ps) <> Staff.orders ps
  /\ Staff.route (Staff.deliver 2000 (INSERT otherOrder) ps) = ThisPage
  /\ Kitchen.orders (Kitchen.deliver 2000 (INSERT otherOrder) pk)
     <> Kitchen.orders pk
  /\ Kitchen.route (Kitchen.deliver 2000 (INSERT otherOrder) pk) = ThisPage.
Proof.
  simpl. repeat split; try lia; intros H; discriminate H.
Qed.

(** C9, amended: a session saved at login expires 8 hours later, and the
    expiry is read when a staff or kitchen page is mounted.  A session
    already expired then is removed, the page goes to the login screen and
    applies no event.  A session not yet expired then (with a restaurant
    id) is kept, and the page applies every event that arrives afterwards,
    at whatever time. *)
Theorem session_checked_at_mount :
  forall (now : Z) (s : POSSession.t) (ps : Staff.Page) (pk : Kitchen.Page)
         (events : list (Z * ChangeEvent Order.t)),
    Staff.storage ps = Some s -> Staff.session ps = None ->
    Kitchen.storage pk = Some s -> Kitchen.session pk = None ->
    (forall (lp : Login.Page) (staff : Login.StaffRow),
        String.length (Login.pin lp) = 6%nat ->
        option_map POSSession.expires
          (Login.storage (Login.handlePinSubmit now
                            (Login.PinData true (Some staff)) lp))
        = Some (now + 28800000))
    /\ (POSSession.expires s < now ->
        Staff.route (Staff.checkSession now ps) = PosLogin
        /\ Staff.storage (Staff.checkSession now ps) = None
        /\ Staff.deliverAll events (Staff.checkSession now ps)
           = Staff.checkSession now ps
        /\ Kitchen.route (Kitchen.checkSession now pk) = PosLogin
        /\ Kitchen.storage (Kitchen.checkSession now pk) = None
        /\ Kitchen.deliverAll events (Kitchen.checkSession now pk)
           = Kitchen.checkSession now pk)
    /\ (now <= POSSession.expires s ->
        truthy (POSSession.restaurantId s) = true ->
        Staff.session (Staff.checkSession now ps) = Some s
        /\ Staff.route (Staff.checkSession now ps) = Staff.route ps
        /\ Staff.deliverAll events (Staff.checkSession now ps)
           = Staff.receive (map snd events) (Staff.checkSession now ps)
        /\ Kitchen.session (Kitchen.checkSession now pk) = Some s
        /\ Kitchen.route (Kitchen.checkSession now pk) = Kitchen.route pk
        /\ Kitchen.deliverAll events (Kitchen.checkSession now pk)
           = Kitchen.receive (map snd events) (Kitchen.checkSession now pk)).
Proof.
  intros now s ps pk events Hs Hn Ks Kn. split; [|split].
  - intros lp staff Hpin. unfold Login.handlePinSubmit. rewrite Hpin. simpl.
    f_equal.
  - intros Hexp. apply Z.ltb_lt in Hexp.
    unfold Staff.checkSession, Kitchen.checkSession. rewrite Hs, Ks, Hexp.
    repeat split.
    + apply staff_unsubscribed_ignores. unfold Staff.subscribed. simpl.
      rewrite Hn. reflexivity.
    + apply kitchen_unsubscribed_ignores. unfold Kitchen.subscribed. simpl.
      rewrite Kn. reflexivity.
  - intros Hexp Hr. apply Z.ltb_ge in Hexp.
    unfold Staff.checkSession, Kitchen.checkSession. rewrite Hs, Ks, Hexp.
    repeat split.
    + apply staff_subscribed_receives. unfold Staff.subscribed. simpl. exact Hr.
    + apply kitchen_subscribed_receives. unfold Kitchen.subscribed. simpl.
      exact Hr.
Qed.

Lemma session_checked_at_mount_witness :
  Staff.orders
    (Staff.deliverAll [(2000, INSERT otherOrder)]
       (Staff.checkSession 500
          (Staff.initial (Some (sampleSession 1000)) true true)))
  = [otherOrder]
  /\ Staff.route
       (Staff.checkSession 1500
          (Staff.initial (Some (sampleSession 1000)) true true))
     = PosLogin.
Proof.
  pose proof (session_checked_at_mount 500 (sampleSession 1000)
                (Staff.initial (Some (sampleSession 1000)) true true)
                (Kitchen.initial (Some (sampleSession 1000)) true true true true)
                [(2000, INSERT otherOrder)]
                eq_refl eq_refl eq_refl eq_refl) as H1.
  pose proof (session_checked_at_mount 1500 (sampleSession 1000)
                (Staff.initial (Some (sampleSession 1000)) true true)
                (Kitchen.initial (Some (sampleSession 1000)) true true true true)
                []
                eq_refl eq_refl eq_refl eq_refl) as H2.
  split.
  - destruct H1 as [_ [_ H1]].
    destruct (H1 ltac:(simpl; lia) eq_refl) as [_ [_ [E _]]].
    rewrite E. reflexivity.
  - destruct H2 as [_ [H2 _]].
    exact (proj1 (H2 ltac:(simpl; lia))).
Defined.

(** ** Validation before an order is sent *)

Lemma blank_empty (s : text) : is_empty s = true -> blank s = true.
Proof.
  destruct s; [reflexivity | intros H; discriminate H].
Qed.

Lemma not_blank_not_empty (s : text) : blank s = false -> is_empty s = false.
Proof.
  destruct s; [intros H; discriminate H | reflexivity].
Qed.

Lemma stored_in_range_is_success (answer : Menu.DeliveryAnswer) (q : Menu.Page)
    (c : DeliveryCalculation.t) :
  Menu.deliveryCalculation (Menu.calculateDeliveryFee answer q) = Some c ->
  DeliveryCalculation.within_range c = true ->
  DeliveryCalculation.success c = true.
Proof.
  unfold Menu.calculateDeliveryFee.
  destruct (blank _); [intros H; inversion H; subst; intros W; discriminate W|].
  destruct (_ || _); [intros H; inversion H; subst; intros W; discriminate W|].
  destruct answer as [|data];
    [intros H; inversion H; subst; intros W; discriminate W|].
  destruct (DeliveryData.success data);
    [|intros H; inversion H; subst; intros W; discriminate W].
  destruct (DeliveryData.is_within_range data) as [[|]|],
           (DeliveryData.delivery_fee data);
    intros H; inversion H; subst; reflexivity.
Qed.

Lemma disabled_label (p : Menu.Page) :
  Menu.placeOrderDisabled p = true -> names_violation p (Menu.placeOrderLabel p).
Proof.
  unfold Menu.placeOrderDisabled, Menu.placeOrderLabel, names_violation.
  destruct (Menu.serviceType p) eqn:S; try (intros H; discriminate H).
  destruct (not_null (Menu.latitude _)); try (intros H; discriminate H).
  destruct (not_null (Menu.longitude _)); try (intros H; discriminate H).
  destruct (negb (Nat.eqb _ 0)); try (intros H; discriminate H).
  destruct (Menu.deliveryCalculation p) as [c|]; simpl; intros H.
  - rewrite H. do 5 right. split; [right; reflexivity|].
    split; [reflexivity|]. exists c. split; [reflexivity|].
    apply negb_true_iff. exact H.
  - do 4 right. left. split; [right; reflexivity|]. split; reflexivity.
Qed.

Lemma alert_names (nowISO : text) (p : Menu.Page) (msg : string) :
  Menu.handlePlaceOrder nowISO p = inl msg -> names_violation p msg.
Proof.
  unfold Menu.handlePlaceOrder, names_violation.
  destruct (Menu.serviceType p) eqn:S.
  - destruct (blank (CustomerDetails.table_no _)) eqn:B; intros H; inversion H.
    left. repeat split.
  - destruct (blank (CustomerDetails.name _)) eqn:B1;
      [intros H; inversion H; right; left; repeat split; discriminate|].
    destruct (blank (CustomerDetails.phone _)) eqn:B2; intros H; inversion H.
    right; right; left; repeat split; discriminate.
  - destruct (blank (CustomerDetails.name _)) eqn:B1;
      [intros H; inversion H; right; left; repeat split; discriminate|].
    destruct (blank (CustomerDetails.phone _)) eqn:B2;
      [intros H; inversion H; right; right; left; repeat split; discriminate|].
    destruct (blank (CustomerDetails.address _)) eqn:B3;
      [intros H; inversion H; do 3 right; left; repeat split|].
    destruct (Menu.automaticCalculation p); [|intros H; discriminate H].
    destruct (Menu.deliveryCalculation p) as [c|].
    + destruct (DeliveryCalculation.within_range c) eqn:W; intros H; inversion H.
      do 5 right. split; [left; reflexivity|]. split; [reflexivity|].
      exists c. split; [reflexivity | exact W].
    + intros H; inversion H. do 4 right. left.
      split; [left; reflexivity|]. split; reflexivity.
Qed.

Lemma posted_valid (nowISO : text) (p : Menu.Page) (body : OrderRequest.t) :
  calculation_stored p ->
  Menu.placeOrderDisabled p = false ->
  Menu.handlePlaceOrder nowISO p = inr body ->
  violated p = false.
Proof.
  unfold calculation_stored, Menu.placeOrderDisabled, Menu.handlePlaceOrder,
    violated, publishes_coordinate_and_tiers.
  intros St D.
  destruct (Menu.serviceType p).
  - destruct (blank (CustomerDetails.table_no _)) eqn:B; intros H;
      [discriminate H|].
    apply not_blank_not_empty; exact B.
  - destruct (blank (CustomerDetails.name _)) eqn:B1; [intros H; discriminate H|].
    destruct (blank (CustomerDetails.phone _)) eqn:B2; [intros H; discriminate H|].
    intros _. rewrite (not_blank_not_empty _ B1), (not_blank_not_empty _ B2).
    reflexivity.
  - destruct (blank (CustomerDetails.name _)) eqn:B1; [intros H; discriminate H|].
    destruct (blank (CustomerDetails.phone _)) eqn:B2; [intros H; discriminate H|].
    destruct (blank (CustomerDetails.address _)) eqn:B3;
      [intros H; discriminate H|].
    intros _.
    rewrite (not_blank_not_empty _ B1), (not_blank_not_empty _ B2),
      (not_blank_not_empty _ B3). simpl.
    destruct (not_null (Menu.latitude _) && not_null (Menu.longitude _)
              && negb (Nat.eqb _ 0)); [|reflexivity].
    simpl in D |- *.
    destruct (Menu.deliveryCalculation p) as [c|]; [|discriminate D].
    apply negb_false_iff in D. destruct St as [answer [q St]].
    rewrite (stored_in_range_is_success answer q c St D), D. reflexivity.
Qed.

(** Whatever the customer does, the calculation the page holds is one
    that [calculateDeliveryFee] stored. *)
Lemma calculation_stored_kept (parseFloat : string -> float)
    (actions : list Menu.Action) :
  forall p : Menu.Page,
    calculation_stored p -> calculation_stored (Menu.run parseFloat actions p).
Proof.
  induction actions as [|a actions IH]; intros p Hp; [exact Hp|].
  unfold Menu.run in *. simpl. apply IH.
  destruct a; try exact Hp; try exact I.
  unfold calculation_stored. simpl.
  destruct (Menu.deliveryCalculation (Menu.calculateDeliveryFee answer p))
    as [c|] eqn:E; [|exact I].
  exists answer, p. exact E.
Qed.

(** C6: an order is validated before it is sent.  An order leaves the page
    only if dine_in has a table number, pickup has name and phone, and
    delivery has name, phone and address and, where the restaurant has a
    geocoordinate and rate tiers, a successful calculation with
    [is_within_range] true; every refusal shows a message that names the
    blank field or the state of the delivery calculation; and a page that
    breaks one of these conditions gets such a refusal and sends no order. *)
Theorem order_validated_before_sending :
  forall (nowISO : text) (p : Menu.Page),
    calculation_stored p ->
    (forall body, Menu.pressPlaceOrder nowISO p = Menu.Posted body ->
                  violated p = false)
    /\ (forall msg, Menu.pressPlaceOrder nowISO p = Menu.Alerted msg
                    \/ Menu.pressPlaceOrder nowISO p = Menu.Blocked msg ->
                    names_violation p msg)
    /\ (violated p = true ->
        exists msg, (Menu.pressPlaceOrder nowISO p = Menu.Alerted msg
                     \/ Menu.pressPlaceOrder nowISO p = Menu.Blocked msg)
                    /\ names_violation p msg).
Proof.
  intros nowISO p St. unfold Menu.pressPlaceOrder.
  destruct (Menu.placeOrderDisabled p) eqn:D.
  - split; [intros body H; discriminate H|]. split.
    + intros msg [H|H]; inversion H. apply disabled_label; exact D.
    + intros _. exists (Menu.placeOrderLabel p).
      split; [right; reflexivity | apply disabled_label; exact D].
  - destruct (Menu.handlePlaceOrder nowISO p) as [m|b] eqn:Hh.
    + split; [intros body H; discriminate H|]. split.
      * intros msg [H|H]; inversion H. subst. apply (alert_names nowISO); exact Hh.
      * intros _. exists m.
        split; [left; reflexivity | apply (alert_names nowISO); exact Hh].
    + pose proof (posted_valid nowISO p b St D Hh) as V.
      split; [intros body _; exact V|]. split.
      * intros msg [H|H]; discriminate H.
      * intros H. rewrite V in H. discriminate H.
Qed.

Lemma order_validated_before_sending_witness :
  let far :=
    Menu.calculateDeliveryFee (Menu.DeliveryJson outOfRange)
      (menuPage delivery (details "" "Mali" "021" "9 Far Road")
                (Some 1%Q) (Some 2%Q) None) in
  violated (menuPage dine_in (details "5" "" "" "") None None None) = false
  /\ (exists msg,
         (Menu.pressPlaceOrder []
            (menuPage delivery (details "" "Mali" "021" "") None None None)
          = Menu.Alerted msg
          \/ Menu.pressPlaceOrder []
               (menuPage delivery (details "" "Mali" "021" "") None None None)
             = Menu.Blocked msg)
         /\ names_violation
              (menuPage delivery (details "" "Mali" "021" "") None None None)
              msg)
  /\ names_violation far "Out of Delivery Range".
Proof.
  intros far. split; [|split].
  - destruct (order_validated_before_sending
                [] (menuPage dine_in (details "5" "" "" "") None None None) I)
      as [H _].
    eapply H. reflexivity.
  - destruct (order_validated_before_sending
                [] (menuPage delivery (details "" "Mali" "021" "") None None None)
                I)
      as [_ [_ H]].
    apply H. reflexivity.
  - assert (St : calculation_stored far).
    { exists (Menu.DeliveryJson outOfRange).
      exists (menuPage delivery (details "" "Mali" "021" "9 Far Road")
                       (Some 1%Q) (Some 2%Q) None).
      reflexivity. }
    destruct (order_validated_before_sending [] far St) as [_ [H _]].
    apply H. right. reflexivity.
Defined.

(** ** The total of an order *)





(** ** The cart *)

(** C10: the cart operations go by [menu_id] alone.  [addToCart] always
    appends one new line of quantity 1 for the dish, whatever lines the
    cart holds; [updateQuantity] moves the quantity of every line with the
    given [menu_id] (not below 1) and leaves the others; [removeFromCart]
    removes every line with the given [menu_id] and keeps the others. *)
Theorem cart_lines_go_by_menu_id :
  forall (parseFloat : string -> float) (p : Menu.Page),
    (forall menu meat addOns notes,
        exists item,
          Menu.cart (Menu.addToCart parseFloat menu meat addOns notes p)
          = (Menu.cart p ++ [item])%list
          /\ CartItem.menu_id item = MenuItem.menu_id menu
          /\ CartItem.quantity item = 1
          /\ CartItem.selectedMeat item = meat
          /\ CartItem.selectedAddOns item = addOns
          /\ CartItem.notes item = notes)
    /\ (forall menuId delta,
           Menu.cart (Menu.updateQuantity menuId delta p)
           = map (fun item => if (CartItem.menu_id item =? menuId)%string
                              then moved delta item else item)
                 (Menu.cart p))
    /\ (forall menuId item,
           In item (Menu.cart (Menu.removeFromCart menuId p))
           <-> In item (Menu.cart p) /\ CartItem.menu_id item <> menuId).
Proof.
  intros parseFloat p. split; [|split].
  - intros menu meat addOns notes. eexists. repeat split.
  - intros menuId delta. reflexivity.
  - intros menuId item. unfold Menu.removeFromCart. simpl.
    rewrite filter_In, negb_true_iff, String.eqb_neq. reflexivity.
Qed.

Lemma cart_lines_go_by_menu_id_witness :
  let p := Menu.mkPage "baan-thai" "r-1" []
             [line "m1" 12 1 (Some "Chicken"); line "m2" 9 2 None;
              line "m1" 14 3 (Some "Prawn")]
             true false dine_in (details "5" "" "" "") [] (Some 0%float)
             (Menu.mkLocation None None) None in
  Menu.cart (Menu.updateQuantity "m1" 1 p)
  = [line "m1" 12 2 (Some "Chicken"); line "m2" 9 2 None;
     line "m1" 14 4 (Some "Prawn")]
  /\ (In (line "m2" 9 2 None) (Menu.cart (Menu.removeFromCart "m1" p))
      /\ ~ In (line "m1" 14 3 (Some "Prawn"))
              (Menu.cart (Menu.removeFromCart "m1" p))).
Proof.
  intros p.
  destruct (cart_lines_go_by_menu_id (fun _ => 0%float) p) as [_ [Hu Hr]].
  split; [rewrite Hu; reflexivity|]. split.
  - apply Hr. split; [right; left; reflexivity | intros H; discriminate H].
  - intros H. apply Hr in H. destruct H as [_ H]. apply H. reflexivity.
Defined.

(** * Further properties of the screens *)

(** ** What UPDATE and DELETE events can do to a view *)

Lemma staff_page_eta (p : Staff.Page) :
  Staff.setOrders (fun _ => Staff.orders p) p = p.
Proof.
  destruct p; reflexivity.
Qed.

Lemma kitchen_page_eta (p : Kitchen.Page) :
  Kitchen.setOrders (fun _ => Kitchen.orders p) p = p.
Proof.
  destruct p; reflexivity.
Qed.

Lemma drop_absent (i : string) (l : list Order.t) :
  held i l = false ->
  filter (fun o => negb (Order.id o =? i)%string) l = l.
Proof.
  induction l as [|a l IH]; simpl; [reflexivity|].
  intros H. apply orb_false_iff in H. destruct H as [Ha Hl].
  rewrite Ha. simpl. rewrite (IH Hl). reflexivity.
Qed.

Lemma replace_absent (n : Order.t) (l : list Order.t) :
  held (Order.id n) l = false ->
  map (fun order => if (Order.id order =? Order.id n)%string then n else order) l
  = l.
Proof.
  induction l as [|a l IH]; simpl; [reflexivity|].
  intros H. apply orb_false_iff in H. destruct H as [Ha Hl].
  rewrite Ha, (IH Hl). reflexivity.
Qed.

Lemma keep_all_active (l : list Order.t) :
  no_terminal l = true ->
  filter (fun o => negb (completed_or_cancelled (Order.status o))) l = l.
Proof.
  induction l as [|a l IH]; simpl; [reflexivity|].
  intros H. apply andb_true_iff in H. destruct H as [Ha Hl].
  rewrite Ha, (IH Hl). reflexivity.
Qed.

Lemma filtered_active (l : list Order.t) :
  no_terminal
    (filter (fun o => negb (completed_or_cancelled (Order.status o))) l) = true.
Proof.
  induction l as [|a l IH]; simpl; [reflexivity|].
  destruct (completed_or_cancelled (Order.status a)) eqn:E; simpl;
    [exact IH | rewrite E, IH; reflexivity].
Qed.

Lemma drop_keeps_active (i : string) (l : list Order.t) :
  no_terminal l = true ->
  no_terminal (filter (fun o => negb (Order.id o =? i)%string) l) = true.
Proof.
  induction l as [|a l IH]; simpl; [reflexivity|].
  intros H. apply andb_true_iff in H. destruct H as [Ha Hl].
  destruct (Order.id a =? i)%string; simpl; [exact (IH Hl)|].
  rewrite Ha, (IH Hl). reflexivity.
Qed.

Lemma replace_keeps_active (n : Order.t) (l : list Order.t) :
  completed_or_cancelled (Order.status n) = false ->
  no_terminal l = true ->
  no_terminal
    (map (fun order => if (Order.id order =? Order.id n)%string then n else order)
         l) = true.
Proof.
  intros Hn. induction l as [|a l IH]; simpl; [reflexivity|].
  intros H. apply andb_true_iff in H. destruct H as [Ha Hl].
  rewrite (IH Hl). destruct (Order.id a =? Order.id n)%string.
  - rewrite Hn. reflexivity.
  - rewrite Ha. reflexivity.
Qed.

(** X1: an UPDATE or DELETE event never brings an order into a view: every
    order the staff screen or the kitchen display holds after the event
    has the id of an order held before it, and the view is not longer. An
    order whose INSERT was not received does not appear through its
    later updates. *)
Theorem update_delete_bring_no_order :
  forall (e : ChangeEvent Order.t) (ps : Staff.Page) (pk : Kitchen.Page),
    is_insert e = false ->
    (forall x, In x (Staff.orders (Staff.ordersChannel e ps)) ->
               held (Order.id x) (Staff.orders ps) = true)
    /\ (forall x, In x (Kitchen.orders (Kitchen.channel e pk)) ->
                  held (Order.id x) (Kitchen.orders pk) = true)
    /\ (List.length (Staff.orders (Staff.ordersChannel e ps))
        <= List.length (Staff.orders ps))%nat
    /\ (List.length (Kitchen.orders (Kitchen.channel e pk))
        <= List.length (Kitchen.orders pk))%nat.
Proof.
  assert (Hheld : forall (l : list Order.t) y, In y l -> held (Order.id y) l = true).
  { intros l y Hy. apply existsb_exists. exists y.
    split; [exact Hy | apply String.eqb_refl]. }
  assert (Hmap : forall (n : Order.t) (l : list Order.t) x,
             In x (map (fun order => if (Order.id order =? Order.id n)%string
                                     then n else order) l) ->
             held (Order.id x) l = true).
  { intros n l x Hx. apply in_map_iff in Hx. destruct Hx as [a [Ea Ha]].
    destruct (Order.id a =? Order.id n)%string eqn:E.
    - subst x. apply String.eqb_eq in E. rewrite <- E. apply Hheld; exact Ha.
    - subst x. apply Hheld; exact Ha. }
  intros [new|new|old] ps pk He; [discriminate He| |]; repeat split.
  - intros x. unfold Staff.ordersChannel.
    destruct (completed_or_cancelled (Order.status new)); simpl; intros Hx.
    + apply filter_In in Hx. apply Hheld. exact (proj1 Hx).
    + apply (Hmap new). exact Hx.
  - intros x. simpl. intros Hx. apply filter_In in Hx.
    apply (Hmap new). exact (proj1 Hx).
  - unfold Staff.ordersChannel.
    destruct (completed_or_cancelled (Order.status new)); simpl.
    + apply filter_length_le.
    + rewrite length_map. apply Nat.le_refl.
  - simpl. etransitivity; [apply filter_length_le|].
    rewrite length_map. apply Nat.le_refl.
  - intros x. simpl. intros Hx. apply filter_In in Hx. apply Hheld.
    exact (proj1 Hx).
  - intros x. simpl. intros Hx. apply filter_In in Hx. apply Hheld.
    exact (proj1 Hx).
  - simpl. apply filter_length_le.
  - simpl. apply filter_length_le.
Qed.

Lemma update_delete_bring_no_order_witness :
  Staff.orders (Staff.ordersChannel (UPDATE (sampleOrder preparing 5))
                                    (staffPage [otherOrder]))
  = [otherOrder]
  /\ (List.length (Staff.orders
                     (Staff.ordersChannel (UPDATE (sampleOrder preparing 5))
                                          (staffPage [otherOrder])))
      <= 1)%nat.
Proof.
  split; [reflexivity|].
  exact (proj1 (proj2 (proj2 (update_delete_bring_no_order
                                (UPDATE (sampleOrder preparing 5))
                                (staffPage [otherOrder]) (kitchenPage [])
                                eq_refl)))).
Defined.

(** X2: an UPDATE or DELETE event for an order id that the view does not
    hold leaves the staff page as it is; it leaves the kitchen page as it
    is when its view holds no completed or cancelled order. *)
Theorem event_for_absent_order_changes_nothing :
  forall (e : ChangeEvent Order.t) (ps : Staff.Page) (pk : Kitchen.Page),
    is_insert e = false ->
    held (event_id e) (Staff.orders ps) = false ->
    held (event_id e) (Kitchen.orders pk) = false ->
    no_terminal (Kitchen.orders pk) = true ->
    Staff.ordersChannel e ps = ps /\ Kitchen.channel e pk = pk.
Proof.
  intros [new|new|old] ps pk He Hs Hk Hn; [discriminate He| |]; simpl in Hs, Hk;
    split.
  - unfold Staff.ordersChannel.
    destruct (completed_or_cancelled (Order.status new));
      rewrite <- (staff_page_eta ps) at 2; unfold Staff.setOrders; simpl; f_equal.
    + apply drop_absent; exact Hs.
    + apply replace_absent; exact Hs.
  - unfold Kitchen.channel. rewrite <- (kitchen_page_eta pk) at 2.
    unfold Kitchen.setOrders; simpl; f_equal.
    rewrite (replace_absent new _ Hk). apply keep_all_active; exact Hn.
  - unfold Staff.ordersChannel. rewrite <- (staff_page_eta ps) at 2.
    unfold Staff.setOrders; simpl; f_equal. apply drop_absent; exact Hs.
  - unfold Kitchen.channel. rewrite <- (kitchen_page_eta pk) at 2.
    unfold Kitchen.setOrders; simpl; f_equal. apply drop_absent; exact Hk.
Qed.

Lemma event_for_absent_order_changes_nothing_witness :
  Staff.ordersChannel (UPDATE (sampleOrder completed 9)) (staffPage [otherOrder])
  = staffPage [otherOrder]
  /\ Kitchen.channel (DELETE "o1") (kitchenPage [otherOrder])
     = kitchenPage [otherOrder].
Proof.
  split.
  - exact (proj1 (event_for_absent_order_changes_nothing
                    (UPDATE (sampleOrder completed 9))
                    (staffPage [otherOrder]) (kitchenPage [otherOrder])
                    eq_refl eq_refl eq_refl eq_refl)).
  - exact (proj2 (event_for_absent_order_changes_nothing
                    (DELETE "o1")
                    (staffPage [otherOrder]) (kitchenPage [otherOrder])
                    eq_refl eq_refl eq_refl eq_refl)).
Defined.

(** X3: on the kitchen display any UPDATE event, for whatever order,
    leaves a view with no completed or cancelled order: a completed or
    cancelled order that an INSERT or the first fetch put in the view is
    dropped by the next update of any other order. *)
Theorem kitchen_update_purges_terminal :
  forall (new : Order.t) (pk : Kitchen.Page),
    no_terminal (Kitchen.orders (Kitchen.channel (UPDATE new) pk)) = true
    /\ forall x, In x (Kitchen.orders pk) ->
                 completed_or_cancelled (Order.status x) = true ->
                 ~ In x (Kitchen.orders (Kitchen.channel (UPDATE new) pk)).
Proof.
  intros new pk. split.
  - simpl. apply filtered_active.
  - intros x _ Hx H. simpl in H. apply filter_In in H. destruct H as [_ H].
    rewrite Hx in H. discriminate H.
Qed.

Lemma kitchen_update_purges_terminal_witness :
  ~ In (sampleOrder cancelled 2)
       (Kitchen.orders
          (Kitchen.channel (UPDATE otherOrder)
             (Kitchen.channel (INSERT (sampleOrder cancelled 2))
                              (kitchenPage [otherOrder])))).
Proof.
  apply (proj2 (kitchen_update_purges_terminal
                  otherOrder
                  (Kitchen.channel (INSERT (sampleOrder cancelled 2))
                                   (kitchenPage [otherOrder])))).
  - left. reflexivity.
  - reflexivity.
Defined.

(** X4: on the staff screen the first fetch stores no completed or
    cancelled order, and UPDATE events, DELETE events and the local
    transition action keep a view free of them; only an INSERT event can
    bring one in. *)
Theorem staff_view_stays_active :
  forall (answer : list Order.t) (events : list (ChangeEvent Order.t))
         (response : option bool) (orderId : string) (newStatus : OrderStatus)
         (p : Staff.Page),
    inserts events = 0%nat ->
    no_terminal
      (Staff.orders
         (Staff.updateOrderStatus response orderId newStatus
            (Staff.receive events (Staff.fetchOrders answer p)))) = true.
Proof.
  intros answer events response orderId newStatus p Hi.
  assert (H0 : no_terminal (Staff.orders (Staff.fetchOrders answer p)) = true)
    by (simpl; apply filtered_active).
  revert H0 Hi. generalize (Staff.fetchOrders answer p). clear p.
  induction events as [|e events IH]; intros p Hp Hi.
  - unfold Staff.receive. simpl. unfold Staff.updateOrderStatus.
    destruct response as [[|]|]; try exact Hp.
    destruct (completed_or_cancelled newStatus); [|exact Hp].
    simpl. apply drop_keeps_active; exact Hp.
  - unfold Staff.receive in *. simpl.
    destruct e as [new|new|old]; [discriminate Hi| |]; apply IH; try exact Hi.
    + unfold Staff.ordersChannel.
      destruct (completed_or_cancelled (Order.status new)) eqn:E; simpl.
      * apply drop_keeps_active; exact Hp.
      * apply replace_keeps_active; assumption.
    + simpl. apply drop_keeps_active; exact Hp.
Qed.

Lemma staff_view_stays_active_witness :
  no_terminal
    (Staff.orders
       (Staff.updateOrderStatus (Some true) "o2" completed
          (Staff.receive [UPDATE (sampleOrder preparing 5)]
             (Staff.fetchOrders [sampleOrder pending 1; sampleOrder cancelled 2;
                                 otherOrder]
                                (staffPage []))))) = true.
Proof.
  exact (staff_view_stays_active
           [sampleOrder pending 1; sampleOrder cancelled 2; otherOrder]
           [UPDATE (sampleOrder preparing 5)] (Some true) "o2" completed
           (staffPage []) eq_refl).
Defined.

(** ** Events about different orders *)

Lemma filter_filter_swap {A : Type} (f g : A -> bool) (l : list A) :
  filter f (filter g l) = filter g (filter f l).
Proof.
  induction l as [|a l IH]; simpl; [reflexivity|].
  destruct (f a) eqn:Ef, (g a) eqn:Eg; simpl; rewrite ?Ef, ?Eg, IH; reflexivity.
Qed.

Lemma replace_replace_swap (n m : Order.t) (l : list Order.t) :
  Order.id n <> Order.id m ->
  map (fun order => if (Order.id order =? Order.id n)%string then n else order)
      (map (fun order => if (Order.id order =? Order.id m)%string then m else order)
           l)
  = map (fun order => if (Order.id order =? Order.id m)%string then m else order)
        (map (fun order => if (Order.id order =? Order.id n)%string then n else order)
             l).
Proof.
  intros Hd. rewrite !map_map. apply map_ext. intros a.
  assert (Hnm : (Order.id n =? Order.id m)%string = false)
    by (apply String.eqb_neq; exact Hd).
  assert (Hmn : (Order.id m =? Order.id n)%string = false)
    by (apply String.eqb_neq; congruence).
  destruct (Order.id a =? Order.id m)%string eqn:Em,
           (Order.id a =? Order.id n)%string eqn:En;
    rewrite ?Em, ?En, ?Hnm, ?Hmn; try reflexivity.
  apply String.eqb_eq in Em, En. congruence.
Qed.

Lemma drop_replace_swap (i : string) (n : Order.t) (l : list Order.t) :
  i <> Order.id n ->
  filter (fun o => negb (Order.id o =? i)%string)
         (map (fun order => if (Order.id order =? Order.id n)%string then n else order)
              l)
  = map (fun order => if (Order.id order =? Order.id n)%string then n else order)
        (filter (fun o => negb (Order.id o =? i)%string) l).
Proof.
  intros Hd. induction l as [|a l IH]; simpl; [reflexivity|]. rewrite IH.
  destruct (Order.id a =? Order.id n)%string eqn:En.
  - apply String.eqb_eq in En.
    assert (Ei : (Order.id a =? i)%string = false)
      by (apply String.eqb_neq; congruence).
    assert (Ei' : (Order.id n =? i)%string = false)
      by (apply String.eqb_neq; congruence).
    rewrite Ei, Ei'. simpl. rewrite En, String.eqb_refl. reflexivity.
  - destruct (Order.id a =? i)%string; simpl; [reflexivity|].
    rewrite En. reflexivity.
Qed.

(** X5: on the staff screen two order events about different order ids,
    not both INSERT, can arrive in either order: the page they leave is
    the same. *)
Theorem staff_events_on_different_orders_commute :
  forall (e1 e2 : ChangeEvent Order.t) (p : Staff.Page),
    event_id e1 <> event_id e2 ->
    is_insert e1 && is_insert e2 = false ->
    Staff.ordersChannel e1 (Staff.ordersChannel e2 p)
    = Staff.ordersChannel e2 (Staff.ordersChannel e1 p).
Proof.
  intros e1 e2 p Hd Hi.
  assert (Hd' : event_id e2 <> event_id e1) by congruence.
  destruct e1 as [n|n|i], e2 as [m|m|j]; simpl in Hd, Hd', Hi;
    try discriminate Hi; unfold Staff.ordersChannel;
    repeat match goal with
           | |- context [completed_or_cancelled (Order.status ?x)] =>
               destruct (completed_or_cancelled (Order.status x))
           end;
    unfold Staff.setOrders, Staff.playNotification, Staff.record; simpl;
    f_equal;
    repeat match goal with
           | |- context [(Order.id ?a =? ?b)%string] =>
               let E := fresh "E" in
               assert (E : (Order.id a =? b)%string = false)
                 by (apply String.eqb_neq; congruence);
               rewrite E; clear E
           end;
    simpl; try reflexivity;
    first [ apply filter_filter_swap
          | apply replace_replace_swap; congruence
          | apply drop_replace_swap; congruence
          | symmetry; apply drop_replace_swap; congruence ].
Qed.

Lemma staff_events_on_different_orders_commute_witness :
  Staff.ordersChannel (UPDATE (sampleOrder preparing 5))
    (Staff.ordersChannel (DELETE "o2")
       (staffPage [sampleOrder pending 1; otherOrder]))
  = Staff.ordersChannel (DELETE "o2")
      (Staff.ordersChannel (UPDATE (sampleOrder preparing 5))
         (staffPage [sampleOrder pending 1; otherOrder])).
Proof.
  apply staff_events_on_different_orders_commute.
  - simpl. intros H. discriminate H.
  - reflexivity.
Defined.

(** ** The badge of pending requests *)

Lemma pending_after_drop (i : string) (l : list ServiceRequest.t) :
  List.length
    (filter (fun r => RequestStatus.eqb (ServiceRequest.status r)
                                        RequestStatus.pending)
            (filter (fun r => negb (ServiceRequest.id r =? i)%string) l))
  = pending_others i l.
Proof.
  unfold pending_others. induction l as [|a l IH]; simpl; [reflexivity|].
  destruct (ServiceRequest.id a =? i)%string; simpl.
  - rewrite andb_false_r. exact IH.
  - rewrite andb_true_r.
    destruct (RequestStatus.eqb (ServiceRequest.status a) RequestStatus.pending);
      simpl; rewrite IH; reflexivity.
Qed.

Lemma pending_after_replace (r : ServiceRequest.t) (l : list ServiceRequest.t) :
  RequestStatus.eqb (ServiceRequest.status r) RequestStatus.pending = false ->
  List.length
    (filter (fun q => RequestStatus.eqb (ServiceRequest.status q)
                                        RequestStatus.pending)
            (map (fun req => if (ServiceRequest.id req =? ServiceRequest.id r)%string
                             then r else req) l))
  = pending_others (ServiceRequest.id r) l.
Proof.
  intros Hr. unfold pending_others. induction l as [|a l IH]; simpl; [reflexivity|].
  destruct (ServiceRequest.id a =? ServiceRequest.id r)%string; simpl.
  - rewrite Hr, andb_false_r. exact IH.
  - rewrite andb_true_r.
    destruct (RequestStatus.eqb (ServiceRequest.status a) RequestStatus.pending);
      simpl; rewrite IH; reflexivity.
Qed.

(** X6: the badge of pending requests stops counting a request as soon as
    it is acted on: after an UPDATE event that carries the request as
    acknowledged or completed, and after a local completion that the
    backend accepted, the badge counts exactly the pending requests with
    other ids. *)
Theorem pending_badge_after_action :
  forall (now : Z) (r : ServiceRequest.t) (p : Staff.Page)
         (table : list RequestRow.t),
    RequestStatus.eqb (ServiceRequest.status r) RequestStatus.pending = false ->
    Staff.pendingRequestsCount (Staff.requestsChannel (UPDATE r) p)
    = pending_others (ServiceRequest.id r) (Staff.serviceRequests p)
    /\ Staff.pendingRequestsCount
         (fst (Staff.updateRequestStatus now Staff.Updated (ServiceRequest.id r)
                                         RequestStatus.completed (p, table)))
       = pending_others (ServiceRequest.id r) (Staff.serviceRequests p).
Proof.
  intros now r p table Hr. split.
  - unfold Staff.requestsChannel, Staff.pendingRequestsCount.
    destruct (RequestStatus.eqb (ServiceRequest.status r) RequestStatus.completed);
      simpl.
    + apply pending_after_drop.
    + apply pending_after_replace; exact Hr.
  - unfold Staff.pendingRequestsCount. simpl. apply pending_after_drop.
Qed.

Lemma pending_badge_after_action_witness :
  Staff.pendingRequestsCount
    (Staff.requestsChannel
       (UPDATE (sampleRequest "q1" RequestStatus.acknowledged))
       (Staff.setServiceRequests
          (fun _ => [sampleRequest "q1" RequestStatus.pending;
                     sampleRequest "q2" RequestStatus.pending])
          (staffPage [])))
  = 1%nat.
Proof.
  rewrite (proj1 (pending_badge_after_action
                    0 (sampleRequest "q1" RequestStatus.acknowledged)
                    (Staff.setServiceRequests
                       (fun _ => [sampleRequest "q1" RequestStatus.pending;
                                  sampleRequest "q2" RequestStatus.pending])
                       (staffPage []))
                    [] eq_refl)).
  reflexivity.
Defined.

(** ** From the login to the screens *)

(** X7: a session that a verified six-character PIN saves at time [now] is
    taken by the staff screen and by the kitchen display mounted at any
    time up to [now] plus 8 hours, and sends both to the login screen,
    removed from storage, when they are mounted later than that; the login
    leads to the kitchen display exactly for the role chef. *)
Theorem login_session_accepted_for_8_hours :
  forall (now later : Z) (staff : Login.StaffRow) (lp : Login.Page)
         (a v m pl : bool),
    String.length (Login.pin lp) = 6%nat ->
    let logged := Login.handlePinSubmit now (Login.PinData true (Some staff)) lp in
    let ps := Staff.checkSession later (Staff.initial (Login.storage logged) a v) in
    let pk := Kitchen.checkSession later
                (Kitchen.initial (Login.storage logged) m pl a v) in
    Login.route logged
    = (if (Login.staff_role staff =? "chef")%string then PosKitchen else PosOrders)
    /\ (later <= now + 28800000 ->
        Staff.session ps = Login.storage logged /\ Staff.route ps = ThisPage
        /\ Kitchen.session pk = Login.storage logged
        /\ Kitchen.route pk = ThisPage)
    /\ (now + 28800000 < later ->
        Staff.session ps = None /\ Staff.route ps = PosLogin
        /\ Staff.storage ps = None
        /\ Kitchen.session pk = None /\ Kitchen.route pk = PosLogin
        /\ Kitchen.storage pk = None).
Proof.
  intros now later staff lp a v m pl Hpin. unfold Login.handlePinSubmit.
  rewrite Hpin. simpl. split; [reflexivity|].
  unfold Staff.checkSession, Kitchen.checkSession. simpl. split.
  - intros H. apply Z.ltb_ge in H. rewrite H. repeat split.
  - intros H. apply Z.ltb_lt in H. rewrite H. repeat split.
Qed.

Lemma login_session_accepted_for_8_hours_witness :
  Staff.route
    (Staff.checkSession 28800000
       (Staff.initial
          (Login.storage
             (Login.handlePinSubmit 0 (Login.PinData true (Some waiter))
                                    (loginPage "123456")))
          true true))
  = ThisPage
  /\ Staff.route
       (Staff.checkSession 28800001
          (Staff.initial
             (Login.storage
                (Login.handlePinSubmit 0 (Login.PinData true (Some waiter))
                                       (loginPage "123456")))
             true true))
     = PosLogin.
Proof.
  split.
  - destruct (login_session_accepted_for_8_hours
                0 28800000 waiter (loginPage "123456") true true true true
                eq_refl) as [_ [H _]].
    exact (proj1 (proj2 (H ltac:(lia)))).
  - destruct (login_session_accepted_for_8_hours
                0 28800001 waiter (loginPage "123456") true true true true
                eq_refl) as [_ [_ H]].
    exact (proj1 (proj2 (H ltac:(lia)))).
Defined.

(** X8: at the very millisecond a session expires the pages disagree: the
    login page removes the saved session and stays where it is, while the
    staff screen and the kitchen display mounted at that time keep it. *)
Theorem expiry_instant_disagreement :
  forall (s : POSSession.t) (lp : Login.Page) (ps : Staff.Page)
         (pk : Kitchen.Page),
    Login.storage lp = Some s ->
    Staff.storage ps = Some s ->
    Kitchen.storage pk = Some s ->
    Login.storage (Login.checkSavedSession (POSSession.expires s) lp) = None
    /\ Login.route (Login.checkSavedSession (POSSession.expires s) lp)
       = Login.route lp
    /\ Staff.session (Staff.checkSession (POSSession.expires s) ps) = Some s
    /\ Staff.storage (Staff.checkSession (POSSession.expires s) ps) = Some s
    /\ Kitchen.session (Kitchen.checkSession (POSSession.expires s) pk) = Some s
    /\ Kitchen.storage (Kitchen.checkSession (POSSession.expires s) pk) = Some s.
Proof.
  intros s lp ps pk Hl Hs Hk.
  unfold Login.checkSavedSession, Staff.checkSession, Kitchen.checkSession.
  rewrite Hl, Hs, Hk, Z.ltb_irrefl.
  replace (POSSession.expires s >? POSSession.expires s) with false
    by (symmetry; rewrite Z.gtb_ltb; apply Z.ltb_irrefl).
  simpl. repeat split; assumption.
Qed.

Lemma expiry_instant_disagreement_witness :
  Login.storage
    (Login.checkSavedSession 1000
       (Login.mkPage (Some (sampleSession 1000)) ThisPage None "" ""))
  = None
  /\ Staff.session
       (Staff.checkSession 1000
          (Staff.initial (Some (sampleSession 1000)) true true))
     = Some (sampleSession 1000).
Proof.
  destruct (expiry_instant_disagreement
              (sampleSession 1000)
              (Login.mkPage (Some (sampleSession 1000)) ThisPage None "" "")
              (Staff.initial (Some (sampleSession 1000)) true true)
              (Kitchen.initial (Some (sampleSession 1000)) true true true true)
              eq_refl eq_refl eq_refl) as [H1 [_ [H2 _]]].
  split; [exact H1 | exact H2].
Defined.

(** ** The number pad *)

Lemma length_append (s1 s2 : string) :
  String.length (s1 ++ s2) = (String.length s1 + String.length s2)%nat.
Proof.
  induction s1 as [|c s1 IH]; simpl; [reflexivity | rewrite IH; reflexivity].
Qed.

Lemma length_dropLast_cons (s : string) :
  forall c : ascii, String.length (Login.dropLast (String c s)) = String.length s.
Proof.
  induction s as [|c' s IH]; intros c; [reflexivity|].
  change (Login.dropLast (String c (String c' s)))
    with (String c (Login.dropLast (String c' s))).
  change (String.length (String c (Login.dropLast (String c' s))))
    with (S (String.length (Login.dropLast (String c' s)))).
  rewrite IH. reflexivity.
Qed.

Lemma length_dropLast (s : string) :
  String.length (Login.dropLast s) = Nat.pred (String.length s).
Proof.
  destruct s as [|c s]; [reflexivity|]. apply length_dropLast_cons.
Qed.

Lemma pressKey_keeps (now : Z) (answer : Login.PinAnswer) (k : Login.Key)
    (p : Login.Page) :
  (String.length (Login.pin p) <= 6)%nat ->
  (String.length (Login.pin (Login.pressKey now answer k p)) <= 6)%nat
  /\ Login.storage (Login.pressKey now answer k p) = Login.storage p
  /\ Login.route (Login.pressKey now answer k p) = Login.route p
  /\ Login.error (Login.pressKey now answer k p) = Login.error p.
Proof.
  intros Hp. destruct k as [d| |]; simpl.
  - unfold Login.handlePinKeyPress.
    destruct (String.length (Login.pin p) <? 6)%nat eqn:E;
      [|repeat split; exact Hp].
    apply Nat.ltb_lt in E.
    assert (Hd : negb (Nat.eqb (String.length (Login.pin p)) 6) = true)
      by (apply negb_true_iff, Nat.eqb_neq; lia).
    unfold Login.handlePinSubmitFrom. rewrite Hd.
    assert (Hn : (String.length (Login.pin p ++ String d "") <= 6)%nat)
      by (rewrite length_append; simpl; lia).
    destruct (Nat.eqb (String.length (Login.pin p ++ String d "")) 6);
      simpl; repeat split; exact Hn.
  - repeat split. lia.
  - unfold Login.handlePinDelete. simpl. rewrite length_dropLast.
    repeat split. lia.
Qed.

(** X9: on the number pad the PIN never grows past six characters, and no
    sequence of keys logs in: whatever the backend would answer, the keys
    change neither the saved session, nor the route, nor the error shown;
    the call of the submit that the sixth digit schedules reads the PIN of
    the render before that digit and returns at once. *)
Theorem number_pad_never_logs_in :
  forall (now : Z) (answer : Login.PinAnswer) (keys : list Login.Key)
         (p : Login.Page),
    (String.length (Login.pin p) <= 6)%nat ->
    (String.length (Login.pin (Login.pressKeys now answer keys p)) <= 6)%nat
    /\ Login.storage (Login.pressKeys now answer keys p) = Login.storage p
    /\ Login.route (Login.pressKeys now answer keys p) = Login.route p
    /\ Login.error (Login.pressKeys now answer keys p) = Login.error p.
Proof.
  intros now answer keys. induction keys as [|k keys IH]; intros p Hp.
  - repeat split; exact Hp.
  - unfold Login.pressKeys in *. simpl.
    destruct (pressKey_keeps now answer k p Hp) as [H1 [H2 [H3 H4]]].
    destruct (IH _ H1) as [I1 [I2 [I3 I4]]].
    rewrite I2, I3, I4, H2, H3, H4. repeat split. exact I1.
Qed.

Lemma number_pad_never_logs_in_witness :
  let keys := map Login.Digit
                  ["1"; "2"; "3"; "4"; "5"; "6"; "7"]%char in
  let q := Login.pressKeys 0 (Login.PinData true (Some waiter)) keys
                           (loginPage "") in
  Login.pin q = "123456" /\ Login.storage q = None /\ Login.route q = ThisPage.
Proof.
  intros keys q.
  destruct (number_pad_never_logs_in
              0 (Login.PinData true (Some waiter)) keys (loginPage "")
              ltac:(simpl; lia)) as [_ [H2 [H3 _]]].
  split; [reflexivity | split; [exact H2 | exact H3]].
Defined.

(** ** Elapsed time on the screens *)

Lemma minutes_of (diff : Z) :
  60000 * (diff / 60000) <= diff < 60000 * (diff / 60000) + 60000.
Proof.
  pose proof (Z.div_mod diff 60000 ltac:(lia)) as H.
  pose proof (Z.mod_pos_bound diff 60000 ltac:(lia)) as B. lia.
Qed.

Lemma hours_of (minutes : Z) :
  60 * (minutes / 60) <= minutes < 60 * (minutes / 60) + 60.
Proof.
  pose proof (Z.div_mod minutes 60 ltac:(lia)) as H.
  pose proof (Z.mod_pos_bound minutes 60 ltac:(lia)) as B. lia.
Qed.

(** X10: the age that the kitchen display and the staff screen print for
    an order is the elapsed time rounded down: just now under one minute
    (also for an order stamped in the future), whole minutes from 1 to 59
    under one hour, then whole hours, which the kitchen display follows
    with the minutes from 0 to 59 that remain. *)
Theorem time_since_rounds_down :
  forall now createdAt : Z,
    match Kitchen.getTimeSince now createdAt with
    | Kitchen.JustNow => now - createdAt < 60000
    | Kitchen.MinutesAgo m =>
        1 <= m < 60 /\ m * 60000 <= now - createdAt < (m + 1) * 60000
    | Kitchen.HoursMinutesAgo h m =>
        1 <= h /\ 0 <= m < 60
        /\ (60 * h + m) * 60000 <= now - createdAt < (60 * h + m + 1) * 60000
    end
    /\ match Staff.getTimeSince now createdAt with
       | Staff.JustNow => now - createdAt < 60000
       | Staff.MinutesAgo m =>
           1 <= m < 60 /\ m * 60000 <= now - createdAt < (m + 1) * 60000
       | Staff.HoursAgo h =>
           1 <= h /\ h * 3600000 <= now - createdAt < (h + 1) * 3600000
       end.
Proof.
  intros now createdAt. unfold Kitchen.getTimeSince, Staff.getTimeSince.
  pose proof (minutes_of (now - createdAt)) as Hm.
  pose proof (hours_of ((now - createdAt) / 60000)) as Hh.
  pose proof (Z.mod_pos_bound ((now - createdAt) / 60000) 60 ltac:(lia)) as Hb.
  pose proof (Z.div_mod ((now - createdAt) / 60000) 60 ltac:(lia)) as Hd.
  destruct ((now - createdAt) / 60000 <? 1) eqn:E1.
  - apply Z.ltb_lt in E1. split; lia.
  - apply Z.ltb_ge in E1.
    destruct ((now - createdAt) / 60000 <? 60) eqn:E2.
    + apply Z.ltb_lt in E2. split; lia.
    + apply Z.ltb_ge in E2. split; repeat split; lia.
Qed.

(** X11: the urgency border of an order on the kitchen display never goes
    back as time passes, and it is the pulsing red one exactly from 15
    minutes of age on. *)
Theorem urgency_only_rises :
  forall now1 now2 createdAt : Z,
    now1 <= now2 ->
    Kitchen.urgency_rank (Kitchen.getUrgencyColor now1 createdAt)
    <= Kitchen.urgency_rank (Kitchen.getUrgencyColor now2 createdAt)
    /\ (Kitchen.getUrgencyColor now1 createdAt = Kitchen.border_red_pulse
        <-> 900000 <= now1 - createdAt).
Proof.
  intros now1 now2 createdAt Hle. unfold Kitchen.getUrgencyColor.
  pose proof (minutes_of (now1 - createdAt)) as H1.
  pose proof (minutes_of (now2 - createdAt)) as H2.
  assert (Hd : (now1 - createdAt) / 60000 <= (now2 - createdAt) / 60000)
    by (apply Z.div_le_mono; lia).
  destruct ((now1 - createdAt) / 60000 <? 5) eqn:A1;
    [|destruct ((now1 - createdAt) / 60000 <? 10) eqn:A2;
      [|destruct ((now1 - createdAt) / 60000 <? 15) eqn:A3]];
    (destruct ((now2 - createdAt) / 60000 <? 5) eqn:B1;
     [|destruct ((now2 - createdAt) / 60000 <? 10) eqn:B2;
       [|destruct ((now2 - createdAt) / 60000 <? 15) eqn:B3]]);
    rewrite ?Z.ltb_lt, ?Z.ltb_ge in *; simpl;
    (split; [lia | split; [intros H; try discriminate H; lia | intros H; try reflexivity; lia]]).
Qed.

Lemma urgency_only_rises_witness :
  Kitchen.urgency_rank (Kitchen.getUrgencyColor 400000 1000)
  <= Kitchen.urgency_rank (Kitchen.getUrgencyColor 901000 1000)
  /\ Kitchen.getUrgencyColor 901000 1000 = Kitchen.border_red_pulse.
Proof.
  split.
  - exact (proj1 (urgency_only_rises 400000 901000 1000 ltac:(lia))).
  - apply (proj2 (urgency_only_rises 901000 901000 1000 ltac:(lia))). lia.
Defined.

(** X12: the estimate of the order-status page is a number of minutes only
    for a pending or preparing order and is then at least 1, and at most
    15 for an order not stamped in the future; a pending order is almost
    ready from 15 minutes of age on; an order in status confirmed, which
    the switch does not list, is always shown as almost ready. *)
Theorem estimate_bounds :
  forall (now : Z) (o : StatusPage.OrderRow),
    (forall m, StatusPage.calculateEstimatedTime now o = StatusPage.Minutes m ->
               1 <= m
               /\ (StatusPage.status o = pending \/ StatusPage.status o = preparing)
               /\ (StatusPage.created_at o <= now -> m <= 15))
    /\ (StatusPage.status o = pending ->
        900000 <= now - StatusPage.created_at o ->
        StatusPage.calculateEstimatedTime now o = StatusPage.AlmostReady)
    /\ (StatusPage.status o = confirmed ->
        StatusPage.calculateEstimatedTime now o = StatusPage.AlmostReady).
Proof.
  intros now o. unfold StatusPage.calculateEstimatedTime. cbv beta zeta.
  change (1000 * 60) with 60000.
  pose proof (minutes_of (now - StatusPage.created_at o)) as Hm.
  split; [|split].
  - intros m. destruct (StatusPage.status o);
      try (intros H; discriminate H).
    + destruct (15 - (now - StatusPage.created_at o) / 60000 <=? 0) eqn:E;
        intros H; [discriminate H|].
      assert (H1 : 15 - (now - StatusPage.created_at o) / 60000 = m)
        by (injection H; intros H0; exact H0).
      clear H. apply Z.leb_gt in E.
      split; [lia | split; [left; reflexivity | intros; lia]].
    + destruct (10 - (now - StatusPage.created_at o) / 60000 <=? 0) eqn:E;
        intros H; [discriminate H|].
      assert (H1 : 10 - (now - StatusPage.created_at o) / 60000 = m)
        by (injection H; intros H0; exact H0).
      clear H. apply Z.leb_gt in E.
      split; [lia | split; [right; reflexivity | intros; lia]].
  - intros Hs Hage. rewrite Hs.
    assert (E : (15 - (now - StatusPage.created_at o) / 60000 <=? 0) = true)
      by (apply Z.leb_le; lia).
    rewrite E. reflexivity.
  - intros Hs. rewrite Hs. reflexivity.
Qed.

Lemma estimate_bounds_witness :
  StatusPage.calculateEstimatedTime 5000000 (sampleRow pending)
  = StatusPage.AlmostReady
  /\ StatusPage.calculateEstimatedTime 1000 (sampleRow confirmed)
     = StatusPage.AlmostReady.
Proof.
  destruct (estimate_bounds 5000000 (sampleRow pending)) as [_ [H _]].
  destruct (estimate_bounds 1000 (sampleRow confirmed)) as [_ [_ H']].
  split; [apply H; [reflexivity | simpl; lia] | apply H'; reflexivity].
Defined.

(** ** The order-status page after a failed fetch *)

Lemma failed_fetch_sets_error (now : Z) (a : StatusPage.Answer)
    (p : StatusPage.Page) :
  fetch_failed a = true ->
  truthy (StatusPage.error (StatusPage.fetchOrder now a p)) = true.
Proof.
  destruct a as [message|code|[|] o]; simpl; intros H; try discriminate H.
  - destruct (truthy message) eqn:E; [exact E | reflexivity].
  - destruct (code =? 404); reflexivity.
  - reflexivity.
Qed.

Lemma fetch_keeps_error (now : Z) (a : StatusPage.Answer) (p : StatusPage.Page) :
  truthy (StatusPage.error p) = true ->
  truthy (StatusPage.error (StatusPage.fetchOrder now a p)) = true
  /\ StatusPage.loading (StatusPage.fetchOrder now a p) = false.
Proof.
  intros Hp. destruct a as [message|code|[|] o]; simpl; split;
    try reflexivity; try exact Hp.
  - destruct (truthy message) eqn:E; [exact E | reflexivity].
  - destruct (code =? 404); reflexivity.
Qed.

(** X13: on the order-status page an error is never cleared: once one
    fetch has failed (thrown error, answer not ok, or success false) the
    page draws the not-found screen after every later reload, also after
    reloads that return the order. *)
Theorem failed_fetch_sticks :
  forall (now : Z) (a : StatusPage.Answer) (later : list (Z * StatusPage.Answer))
         (p : StatusPage.Page),
    fetch_failed a = true ->
    StatusPage.screen (StatusPage.reload later (StatusPage.fetchOrder now a p))
    = StatusPage.NotFoundScreen.
Proof.
  intros now a later p Ha.
  assert (H : truthy (StatusPage.error (StatusPage.fetchOrder now a p)) = true
              /\ StatusPage.loading (StatusPage.fetchOrder now a p) = false).
  { split; [apply failed_fetch_sets_error; exact Ha|].
    destruct a as [message|code|[|] o]; reflexivity. }
  revert H. generalize (StatusPage.fetchOrder now a p). clear p Ha.
  induction later as [|[t b] later IH]; intros q [He Hl].
  - unfold StatusPage.reload, StatusPage.screen. simpl. rewrite Hl, He.
    reflexivity.
  - unfold StatusPage.reload in *. simpl. apply IH.
    apply fetch_keeps_error; exact He.
Qed.

Lemma failed_fetch_sticks_witness :
  StatusPage.screen
    (StatusPage.reload [(7000, StatusPage.Ok true (sampleRow ready))]
       (StatusPage.fetchOrder 6000 (StatusPage.NotOk 500)
          (StatusPage.fetchOrder 5000 (StatusPage.Ok true (sampleRow pending))
                                 StatusPage.initial)))
  = StatusPage.NotFoundScreen.
Proof.
  exact (failed_fetch_sticks
           6000 (StatusPage.NotOk 500)
           [(7000, StatusPage.Ok true (sampleRow ready))]
           (StatusPage.fetchOrder 5000 (StatusPage.Ok true (sampleRow pending))
                                  StatusPage.initial)
           eq_refl).
Defined.

(** ** The delivery calculation on the menu page *)

(** X14: typing in the delivery address throws the calculation away: for a
    delivery order of a restaurant with coordinate and tiers the button is
    then disabled with the text to calculate first, whatever was
    calculated before; the fee selected for the previous address stays in
    the total shown. *)
Theorem address_change_blocks_delivery :
  forall (nowISO value : text) (p : Menu.Page),
    Menu.serviceType p = delivery ->
    publishes_coordinate_and_tiers p = true ->
    Menu.pressPlaceOrder nowISO (Menu.changeAddress value p)
    = Menu.Blocked "Calculate Delivery Fee First"
    /\ Menu.selectedDeliveryFee (Menu.changeAddress value p)
       = Menu.selectedDeliveryFee p
    /\ Menu.getTotalPrice (Menu.changeAddress value p) = Menu.getTotalPrice p.
Proof.
  intros nowISO value p Hs Hp. unfold publishes_coordinate_and_tiers in Hp.
  unfold Menu.pressPlaceOrder, Menu.placeOrderDisabled, Menu.placeOrderLabel,
    Menu.getTotalPrice, Menu.getDeliveryFee, Menu.getSubtotal.
  simpl. rewrite Hs, Hp. simpl. repeat split.
Qed.

Lemma address_change_blocks_delivery_witness :
  Menu.pressPlaceOrder []
    (Menu.changeAddress (utf16 "1 Near Road")
       (Menu.calculateDeliveryFee (Menu.DeliveryJson outOfRange)
          (menuPage delivery (details "" "Mali" "021" "9 Far Road")
                    (Some 1%Q) (Some 2%Q) None)))
  = Menu.Blocked "Calculate Delivery Fee First".
Proof.
  exact (proj1 (address_change_blocks_delivery
                  [] (utf16 "1 Near Road")
                  (Menu.calculateDeliveryFee (Menu.DeliveryJson outOfRange)
                     (menuPage delivery (details "" "Mali" "021" "9 Far Road")
                               (Some 1%Q) (Some 2%Q) None))
                  eq_refl eq_refl)).
Defined.



(** Whatever a customer does on a page whose restaurant has a latitude or
    longitude that is 0 (not null), no calculation within range is ever
    stored. *)
Lemma zero_coordinate_never_in_range (parseFloat : string -> float)
    (actions : list Menu.Action) :
  forall p : Menu.Page,
    number_truthy (Menu.latitude (Menu.restaurantLocation p))
    && number_truthy (Menu.longitude (Menu.restaurantLocation p)) = false ->
    match Menu.deliveryCalculation p with
    | Some c => DeliveryCalculation.within_range c = false
    | None => True
    end ->
    let q := Menu.run parseFloat actions p in
    Menu.restaurantLocation q = Menu.restaurantLocation p
    /\ Menu.deliveryRates q = Menu.deliveryRates p
    /\ match Menu.deliveryCalculation q with
       | Some c => DeliveryCalculation.within_range c = false
       | None => True
       end.
Proof.
  induction actions as [|a actions IH]; intros p Hz Hc; [repeat split; exact Hc|].
  unfold Menu.run in *. simpl.
  assert (Hstep : Menu.restaurantLocation (Menu.act parseFloat a p)
                  = Menu.restaurantLocation p
                  /\ Menu.deliveryRates (Menu.act parseFloat a p)
                     = Menu.deliveryRates p
                  /\ match Menu.deliveryCalculation (Menu.act parseFloat a p) with
                     | Some c => DeliveryCalculation.within_range c = false
                     | None => True
                     end).
  { destruct a; simpl; try (repeat split; exact Hc); try (repeat split; exact I).
    unfold Menu.calculateDeliveryFee.
    destruct (blank _); [simpl; repeat split|].
    apply andb_false_iff in Hz.
    replace (negb (number_truthy (Menu.latitude (Menu.restaurantLocation p)))
             || negb (number_truthy (Menu.longitude (Menu.restaurantLocation p))))
      with true
      by (destruct Hz as [Hz|Hz]; rewrite Hz; simpl;
          [reflexivity | rewrite orb_true_r; reflexivity]).
    simpl. repeat split. }
  destruct Hstep as [Hl [Hr Hc']].
  destruct (IH (Menu.act parseFloat a p)) as [I1 [I2 I3]];
    [rewrite Hl; exact Hz | exact Hc' |].
  rewrite I1, I2, Hl, Hr. repeat split. exact I3.
Qed.

(** X16: a restaurant whose latitude or longitude is 0 (set, not null)
    with rate tiers can never be sent a delivery order from the page: the
    button asks for a calculation within range, and [calculateDeliveryFee]
    refuses to calculate for a coordinate that is falsy.  After any
    actions of the customer the button is disabled for delivery. *)
Theorem zero_coordinate_blocks_delivery :
  forall (parseFloat : string -> float) (nowISO : text)
         (actions : list Menu.Action) (p : Menu.Page),
    publishes_coordinate_and_tiers p = true ->
    number_truthy (Menu.latitude (Menu.restaurantLocation p))
    && number_truthy (Menu.longitude (Menu.restaurantLocation p)) = false ->
    Menu.deliveryCalculation p = None ->
    Menu.serviceType (Menu.run parseFloat actions p) = delivery ->
    exists label,
      Menu.pressPlaceOrder nowISO (Menu.run parseFloat actions p)
      = Menu.Blocked label.
Proof.
  intros parseFloat nowISO actions p Hp Hz Hc Hs.
  destruct (zero_coordinate_never_in_range parseFloat actions p Hz)
    as [Hl [Hr Hq]]; [rewrite Hc; exact I|].
  unfold publishes_coordinate_and_tiers in Hp.
  unfold Menu.pressPlaceOrder, Menu.placeOrderDisabled.
  rewrite Hs, Hl, Hr, Hp. simpl.
  destruct (Menu.deliveryCalculation (Menu.run parseFloat actions p)) as [c|].
  - rewrite Hq. simpl. eexists. reflexivity.
  - eexists. reflexivity.
Qed.

Lemma zero_coordinate_blocks_delivery_witness :
  exists label,
    Menu.pressPlaceOrder []
      (Menu.run (fun _ => 0%float)
         [Menu.ChooseService delivery;
          Menu.TypeAddress (utf16 "1 Near Road");
          Menu.Calculate (Menu.DeliveryJson
                            (DeliveryData.mk true (Some 1%Q) None None None
                                             (FeeNumber 5%float) (Some true)
                                             None None None None))]
         (menuPage dine_in (details "" "Mali" "021" "") (Some 0%Q) (Some 174%Q)
                   None))
    = Menu.Blocked label.
Proof.
  apply zero_coordinate_blocks_delivery; reflexivity.
Defined.

(** ** Quantities and prices in the cart *)

Lemma moved_back (item : CartItem.t) :
  1 <= CartItem.quantity item -> moved (-1) (moved 1 item) = item.
Proof.
  intros H. destruct item as [i n ne pr q m a no]. unfold moved. simpl in *.
  f_equal. lia.
Qed.

(** X17: [updateQuantity] never leaves a line of the dish with a quantity
    under 1, and keeps the number of lines; one step up followed by one
    step down gives the page back when the lines of the dish had
    quantities of at least 1. *)
Theorem quantity_up_then_down :
  forall (menuId : string) (delta : Z) (p : Menu.Page),
    (forall item, In item (Menu.cart (Menu.updateQuantity menuId delta p)) ->
                  CartItem.menu_id item = menuId -> 1 <= CartItem.quantity item)
    /\ List.length (Menu.cart (Menu.updateQuantity menuId delta p))
       = List.length (Menu.cart p)
    /\ ((forall item, In item (Menu.cart p) -> CartItem.menu_id item = menuId ->
                      1 <= CartItem.quantity item) ->
        Menu.updateQuantity menuId (-1) (Menu.updateQuantity menuId 1 p) = p).
Proof.
  intros menuId delta p. split; [|split].
  - intros item Hin Hid. simpl in Hin. apply in_map_iff in Hin.
    destruct Hin as [a [Ha _]].
    destruct (CartItem.menu_id a =? menuId)%string eqn:E.
    + subst item. simpl. lia.
    + subst item. apply String.eqb_neq in E. contradiction.
  - simpl. apply length_map.
  - intros Hq. destruct p as [r1 r2 om c sc sm st cd dr fee loc calc].
    unfold Menu.updateQuantity, Menu.setCart. simpl in *. f_equal.
    rewrite map_map. rewrite <- (map_id c) at 2. apply map_ext_in.
    intros a Ha. destruct (CartItem.menu_id a =? menuId)%string eqn:E.
    + simpl. rewrite E. apply (moved_back a). apply Hq; [exact Ha|].
      apply String.eqb_eq. exact E.
    + rewrite E. reflexivity.
Qed.

Lemma quantity_up_then_down_witness :
  Menu.updateQuantity "m1" (-1)
    (Menu.updateQuantity "m1" 1
       (menuPage dine_in (details "5" "" "" "") None None None))
  = menuPage dine_in (details "5" "" "" "") None None None.
Proof.
  apply (proj2 (proj2 (quantity_up_then_down
                         "m1" 0
                         (menuPage dine_in (details "5" "" "" "") None None None)))).
  simpl. intros item [H|[H|[]]] _; subst item; simpl; lia.
Defined.




(** ** The item modal *)

Lemma addToCartFrom_twice (parseFloat : string -> float) (seen : Menu.Page)
    (menu : MenuItem.t) (meat : option string) (addOns : option (list string))
    (notes : option string) (current : Menu.Page) :
  Menu.addToCartFrom parseFloat seen menu meat addOns notes
    (Menu.addToCartFrom parseFloat seen menu meat addOns notes current)
  = Menu.addToCartFrom parseFloat seen menu meat addOns notes current.
Proof.
  reflexivity.
Qed.

(** X20: the add button of the item modal puts one line of quantity 1 in
    the cart whatever quantity of at least 1 is chosen: the calls it makes
    in one event all append to the cart of the same render, and the last
    write stands.  The page is the one a single [addToCart] leaves. *)
Theorem modal_adds_one_line :
  forall (parseFloat : string -> float) (menu : MenuItem.t) (quantity : Z)
         (selectedMeat : string) (selectedAddOns : list string) (notes : string)
         (p : Menu.Page),
    1 <= quantity ->
    Menu.handleAddToCart parseFloat menu quantity selectedMeat selectedAddOns
                         notes p
    = Menu.addToCart parseFloat menu
        (Menu.or_undefined selectedMeat)
        (match selectedAddOns with [] => None | _ :: _ => Some selectedAddOns end)
        (Menu.or_undefined notes) p
    /\ List.length
         (Menu.cart (Menu.handleAddToCart parseFloat menu quantity selectedMeat
                                          selectedAddOns notes p))
       = S (List.length (Menu.cart p)).
Proof.
  intros parseFloat menu quantity selectedMeat selectedAddOns notes p Hq.
  unfold Menu.handleAddToCart.
  assert (Hn : exists n, Z.to_nat quantity = S n)
    by (exists (Nat.pred (Z.to_nat quantity)); lia).
  destruct Hn as [n Hn]. rewrite Hn. clear Hn Hq.
  assert (H : Nat.iter (S n)
                (Menu.addToCartFrom parseFloat p menu
                   (Menu.or_undefined selectedMeat)
                   (match selectedAddOns with
                    | [] => None
                    | _ :: _ => Some selectedAddOns
                    end)
                   (Menu.or_undefined notes)) p
              = Menu.addToCart parseFloat menu
                  (Menu.or_undefined selectedMeat)
                  (match selectedAddOns with
                   | [] => None
                   | _ :: _ => Some selectedAddOns
                   end)
                  (Menu.or_undefined notes) p).
  { induction n as [|n IH]; [reflexivity|].
    change (Nat.iter (S (S n)) ?f p) with (f (Nat.iter (S n) f p)).
    rewrite IH. reflexivity. }
  rewrite H. split; [reflexivity|].
  simpl. rewrite length_app. simpl. lia.
Qed.

Lemma modal_adds_one_line_witness :
  List.length
    (Menu.cart
       (Menu.handleAddToCart
          (fun _ => 12%float)
          (MenuItem.mk "m9" "Tom Yum" None None "12" "Soup" None None None)
          3 "" [] ""
          (menuPage dine_in (details "5" "" "" "") None None None)))
  = 3%nat.
Proof.
  exact (proj2 (modal_adds_one_line
                  (fun _ => 12%float)
                  (MenuItem.mk "m9" "Tom Yum" None None "12" "Soup" None None None)
                  3 "" [] ""
                  (menuPage dine_in (details "5" "" "" "") None None None)
                  ltac:(lia))).
Defined.

(** ** Blank fields *)

Lemma trimStart_empty (s : text) :
  trimStart s = [] <-> Forall (fun c => is_whitespace c = true) s.
Proof.
  induction s as [|c s IH]; simpl.
  - split; intros; [constructor | reflexivity].
  - destruct (is_whitespace c) eqn:E.
    + rewrite IH. split; intros H; [constructor; assumption | inversion H; assumption].
    + split; intros H; [discriminate H | inversion H; congruence].
Qed.

Lemma trimStart_suffix (s : text) :
  exists pre, s = (pre ++ trimStart s)%list
              /\ Forall (fun c => is_whitespace c = true) pre.
Proof.
  induction s as [|c s [pre [E F]]]; simpl.
  - exists []. split; [reflexivity | constructor].
  - destruct (is_whitespace c) eqn:W.
    + exists (c :: pre). split; [simpl; rewrite <- E; reflexivity|].
      constructor; assumption.
    + exists []. split; [reflexivity | constructor].
Qed.

Lemma blank_iff_whitespace (s : text) :
  blank s = true <-> Forall (fun c => is_whitespace c = true) s.
Proof.
  unfold blank, trim, trimEnd.
  destruct (trimStart_suffix s) as [pre [E F]].
  split.
  - intros H.
    assert (Hr : rev (trimStart (rev (trimStart s))) = [])
      by (destruct (rev (trimStart (rev (trimStart s))));
          [reflexivity | discriminate H]).
    apply (f_equal (@rev N)) in Hr. rewrite rev_involutive in Hr. simpl in Hr.
    apply trimStart_empty in Hr.
    assert (Ht : Forall (fun c => is_whitespace c = true) (trimStart s)).
    { apply Forall_forall. intros x Hx. rewrite Forall_forall in Hr.
      apply Hr. apply in_rev in Hx. exact Hx. }
    rewrite E. apply Forall_app. split; assumption.
  - intros H. apply trimStart_empty in H. rewrite H. reflexivity.
Qed.

(** X21: the blank test of the page refuses exactly the texts made of
    white space only: a dine-in order leaves [handlePlaceOrder] if and
    only if the table number has a character that is not white space, and
    a call of the staff leaves [handleServiceRequest] if and only if a
    request type is chosen and the table number has such a character; the
    body then carries the table number as typed, the id the API gave, and
    a null message for an empty one. *)
Theorem blank_fields_are_refused :
  forall (nowISO : text) (requestType : string) (customMessage : text)
         (p : Menu.Page),
    let table := CustomerDetails.table_no (Menu.customerDetails p) in
    (Menu.serviceType p = dine_in ->
     ((exists body, Menu.handlePlaceOrder nowISO p = inr body)
      <-> Exists (fun c => is_whitespace c = false) table))
    /\ ((exists body, Menu.handleServiceRequest requestType customMessage p
                      = inr body)
        <-> requestType <> ""%string
            /\ Exists (fun c => is_whitespace c = false) table)
    /\ (forall body,
           Menu.handleServiceRequest requestType customMessage p = inr body ->
           Menu.body_table_no body = table
           /\ Menu.body_restaurant_id body = Menu.restaurantId p
           /\ Menu.body_request_type body = requestType
           /\ (Menu.body_message body = None <-> customMessage = [])).
Proof.
  intros nowISO requestType customMessage p table.
  assert (Hb : blank table = false
               <-> Exists (fun c => is_whitespace c = false) table).
  { rewrite <- not_true_iff_false, blank_iff_whitespace.
    rewrite <- Exists_Forall_neg
      by (intros x; destruct (is_whitespace x); [left|right]; congruence).
    split; intros H; apply Exists_exists in H; apply Exists_exists;
      destruct H as [x [Hx Hw]]; exists x; split; try exact Hx;
      destruct (is_whitespace x); congruence. }
  split; [|split].
  - intros Hs. unfold Menu.handlePlaceOrder. rewrite Hs. fold table.
    rewrite <- Hb. destruct (blank table); split.
    + intros [body H]; discriminate H.
    + intros H; discriminate H.
    + reflexivity.
    + intros _. eexists. reflexivity.
  - unfold Menu.handleServiceRequest. fold table. rewrite <- Hb.
    unfold truthy. destruct (requestType =? "")%string eqn:E; simpl.
    + apply String.eqb_eq in E. split.
      * intros [body H]; discriminate H.
      * intros [H _]. contradiction.
    + apply String.eqb_neq in E. destruct (blank table); split.
      * intros [body H]; discriminate H.
      * intros [_ H]; discriminate H.
      * intros _. split; [exact E | reflexivity].
      * intros _. eexists. reflexivity.
  - intros body. unfold Menu.handleServiceRequest. fold table.
    destruct (negb (truthy requestType)); [intros H; discriminate H|].
    destruct (blank table); [intros H; discriminate H|].
    intros H. injection H as H. subst body. simpl. repeat split.
    + destruct customMessage; [reflexivity | intros H; discriminate H].
    + intros H. rewrite H. reflexivity.
Qed.

Lemma blank_fields_are_refused_witness :
  (exists body,
      Menu.handlePlaceOrder []
        (menuPage dine_in (details " 5" "" "" "") None None None) = inr body)
  /\ ~ (exists body,
           Menu.handleServiceRequest "call_waiter" []
             (menuPage dine_in (details "  " "" "" "") None None None)
           = inr body).
Proof.
  split.
  - apply (proj1 (blank_fields_are_refused
                    [] "" []
                    (menuPage dine_in (details " 5" "" "" "") None None None))
                 eq_refl).
    right. left. reflexivity.
  - intros H.
    apply (proj1 (proj2 (blank_fields_are_refused
                           [] "call_waiter" []
                           (menuPage dine_in (details "  " "" "" "") None None
                                     None))))
      in H.
    destruct H as [_ H]. simpl in H.
    inversion H as [x l Hx|x l Hx]; [discriminate Hx|].
    inversion Hx as [y l' Hy|y l' Hy]; [discriminate Hy | inversion Hy].
Defined.

(** ** The delivery tiers after loading *)

Lemma insertRate_perm (r : DeliveryRate.t) (l : list DeliveryRate.t) :
  Permutation (r :: l) (Menu.insertRate r l).
Proof.
  induction l as [|x l IH]; simpl; [apply Permutation_refl|].
  destruct (Qle_bool (DeliveryRate.distance_km r) (DeliveryRate.distance_km x)).
  - apply Permutation_refl.
  - apply perm_trans with (x :: r :: l); [apply perm_swap|].
    apply perm_skip. exact IH.
Qed.

Lemma sortRates_perm (l : list DeliveryRate.t) :
  Permutation l (Menu.sortRates l).
Proof.
  induction l as [|r l IH]; simpl; [apply Permutation_refl|].
  apply perm_trans with (r :: Menu.sortRates l);
    [apply perm_skip; exact IH | apply insertRate_perm].
Qed.

Lemma insertRate_sorted (r : DeliveryRate.t) (l : list DeliveryRate.t) :
  StronglySorted (fun a b => (DeliveryRate.distance_km a
                              <= DeliveryRate.distance_km b)%Q) l ->
  StronglySorted (fun a b => (DeliveryRate.distance_km a
                              <= DeliveryRate.distance_km b)%Q)
                 (Menu.insertRate r l).
Proof.
  induction l as [|x l IH]; simpl; intros Hs.
  - constructor; constructor.
  - inversion Hs as [|y l' Hl Hx]; subst.
    destruct (Qle_bool (DeliveryRate.distance_km r) (DeliveryRate.distance_km x))
      eqn:E.
    + apply Qle_bool_iff in E. constructor; [exact Hs|].
      constructor; [exact E|].
      apply Forall_forall. intros z Hz. rewrite Forall_forall in Hx.
      apply Qle_trans with (DeliveryRate.distance_km x); [exact E | apply Hx; exact Hz].
    + assert (Hlt : (DeliveryRate.distance_km x <= DeliveryRate.distance_km r)%Q).
      { apply Qlt_le_weak. apply Qnot_le_lt. intros H.
        apply Qle_bool_iff in H. congruence. }
      constructor; [apply IH; exact Hl|].
      apply Forall_forall. intros z Hz.
      apply (Permutation_in z (Permutation_sym (insertRate_perm r l))) in Hz.
      destruct Hz as [Hz|Hz]; [subst z; exact Hlt|].
      rewrite Forall_forall in Hx. apply Hx; exact Hz.
Qed.

Lemma sortRates_sorted (l : list DeliveryRate.t) :
  StronglySorted (fun a b => (DeliveryRate.distance_km a
                              <= DeliveryRate.distance_km b)%Q)
                 (Menu.sortRates l).
Proof.
  induction l as [|r l IH]; simpl; [constructor | apply insertRate_sorted; exact IH].
Qed.

(** X22: after the restaurant settings are read with at least one delivery
    tier, the page holds the same tiers ordered by distance, and the fee
    selected by default is the price of a nearest tier; with no tier the
    page is left as it is. *)
Theorem default_fee_is_nearest_tier :
  forall (rates : list DeliveryRate.t) (p : Menu.Page),
    rates <> [] ->
    let q := Menu.loadDeliveryRates (Some rates) p in
    Permutation rates (Menu.deliveryRates q)
    /\ StronglySorted (fun a b => (DeliveryRate.distance_km a
                                   <= DeliveryRate.distance_km b)%Q)
                      (Menu.deliveryRates q)
    /\ (exists first,
           In first rates
           /\ Menu.selectedDeliveryFee q = Some (DeliveryRate.price first)
           /\ forall r, In r rates ->
                        (DeliveryRate.distance_km first
                         <= DeliveryRate.distance_km r)%Q)
    /\ Menu.loadDeliveryRates (Some []) p = p
    /\ Menu.loadDeliveryRates None p = p.
Proof.
  intros rates p Hne q. subst q.
  destruct rates as [|r0 rest]; [contradiction|].
  unfold Menu.loadDeliveryRates.
  pose proof (sortRates_perm (r0 :: rest)) as Hp.
  pose proof (sortRates_sorted (r0 :: rest)) as Hs.
  destruct (Menu.sortRates (r0 :: rest)) as [|first sorted] eqn:E.
  - apply Permutation_sym, Permutation_nil in Hp. discriminate Hp.
  - simpl. split; [exact Hp|]. split; [exact Hs|].
    split; [|split; reflexivity].
    exists first. split; [|split; [reflexivity|]].
    + apply (Permutation_in first (Permutation_sym Hp)). left. reflexivity.
    + intros r Hr. apply (Permutation_in r Hp) in Hr.
      inversion Hs as [|y l' Hl Hx]; subst.
      destruct Hr as [Hr|Hr]; [subst r; apply Qle_refl|].
      rewrite Forall_forall in Hx. apply Hx; exact Hr.
Qed.

Lemma default_fee_is_nearest_tier_witness :
  Menu.selectedDeliveryFee
    (Menu.loadDeliveryRates
       (Some [DeliveryRate.mk "t2" 8 9; DeliveryRate.mk "t1" 3 5])
       (menuPage delivery (details "" "" "" "") None None None))
  = Some 5%float.
Proof.
  destruct (default_fee_is_nearest_tier
              [DeliveryRate.mk "t2" 8 9; DeliveryRate.mk "t1" 3 5]
              (menuPage delivery (details "" "" "" "") None None None)
              ltac:(discriminate)) as [_ [_ [[first [_ [H _]]] _]]].
  reflexivity.
Defined.

(** ** The hash of the source text *)

Lemma toInt32_rep (z : Z) : exists k, Menu.toInt32 z = z + k * 4294967296.
Proof.
  unfold Menu.toInt32. exists (- ((z + 2147483648) / 4294967296)).
  pose proof (Z.div_mod (z + 2147483648) 4294967296 ltac:(lia)). lia.
Qed.

Lemma toInt32_shift (z k : Z) :
  Menu.toInt32 (z + k * 4294967296) = Menu.toInt32 z.
Proof.
  unfold Menu.toInt32.
  replace (z + k * 4294967296 + 2147483648)
    with (z + 2147483648 + k * 4294967296) by lia.
  rewrite Z_mod_plus_full. reflexivity.
Qed.

Lemma toInt32_range (z : Z) : -2147483648 <= Menu.toInt32 z < 2147483648.
Proof.
  unfold Menu.toInt32.
  pose proof (Z.mod_pos_bound (z + 2147483648) 4294967296 ltac:(lia)). lia.
Qed.

Lemma hashStep_wraps (g : Z) (c : N) :
  Menu.hashStep (Menu.toInt32 g) c = Menu.toInt32 (31 * g + Z.of_N c).
Proof.
  unfold Menu.hashStep.
  destruct (toInt32_rep g) as [k0 H0].
  destruct (toInt32_rep (Menu.toInt32 g)) as [k1 H1].
  destruct (toInt32_rep (Menu.toInt32 (Menu.toInt32 g) * 32)) as [k2 H2].
  rewrite H2, H1, H0.
  replace ((g + k0 * 4294967296 + k1 * 4294967296) * 32 + k2 * 4294967296
           - (g + k0 * 4294967296) + Z.of_N c)
    with (31 * g + Z.of_N c + (31 * k0 + 32 * k1 + k2) * 4294967296) by lia.
  apply toInt32_shift.
Qed.

Lemma hash_is_wrapped_polynomial (l : text) :
  forall g : Z,
    fold_left Menu.hashStep l (Menu.toInt32 g)
    = Menu.toInt32 (fold_left (fun h c => 31 * h + Z.of_N c) l g).
Proof.
  induction l as [|c l IH]; intros g; simpl; [reflexivity|].
  rewrite hashStep_wraps. apply IH.
Qed.

Lemma toString16_length (fuel : nat) :
  forall (n : Z) (acc : string),
    (String.length acc < String.length (Menu.toString16 (S fuel) n acc)
     <= S fuel + String.length acc)%nat.
Proof.
  induction fuel as [|fuel IH]; intros n acc.
  - change (Menu.toString16 1 n acc)
      with (if n / 16 =? 0
            then String (Menu.hexDigit (n mod 16)) acc
            else String (Menu.hexDigit (n mod 16)) acc).
    destruct (n / 16 =? 0); simpl String.length; lia.
  - change (Menu.toString16 (S (S fuel)) n acc)
      with (if n / 16 =? 0
            then String (Menu.hexDigit (n mod 16)) acc
            else Menu.toString16 (S fuel) (n / 16)
                                 (String (Menu.hexDigit (n mod 16)) acc)).
    destruct (n / 16 =? 0); [simpl String.length; lia|].
    specialize (IH (n / 16) (String (Menu.hexDigit (n mod 16)) acc)).
    change (String.length (String (Menu.hexDigit (n mod 16)) acc))
      with (S (String.length acc)) in IH.
    lia.
Qed.

(** X23: the number [generateSourceHash] prints is the absolute value of
    the polynomial in 31 over the code units of the joined text, wrapped
    to a signed 32-bit integer (shift, subtraction and addition of the
    loop amount to times 31 plus the code unit); it lies between 0 and
    2^31, and its text has from 1 to 8 characters. *)
Theorem source_hash_is_polynomial_in_31 :
  forall (name description category : text) (meats addOns : list text),
    Menu.sourceHashNumber name description category meats addOns
    = Z.abs (Menu.toInt32
               (polynomial31
                  (Menu.joinBar ([name; description; category] ++ meats ++ addOns)%list)))
    /\ 0 <= Menu.sourceHashNumber name description category meats addOns
       <= 2147483648
    /\ (1 <= String.length
               (Menu.generateSourceHash name description category meats addOns)
        <= 8)%nat.
Proof.
  intros name description category meats addOns.
  assert (E : Menu.sourceHashNumber name description category meats addOns
              = Z.abs (Menu.toInt32
                         (polynomial31
                            (Menu.joinBar ([name; description; category]
                                           ++ meats ++ addOns)%list)))).
  { unfold Menu.sourceHashNumber, polynomial31.
    rewrite <- hash_is_wrapped_polynomial. reflexivity. }
  split; [exact E|]. split.
  - rewrite E.
    pose proof (toInt32_range
                  (polynomial31
                     (Menu.joinBar ([name; description; category]
                                    ++ meats ++ addOns)%list))).
    lia.
  - unfold Menu.generateSourceHash.
    pose proof (toString16_length
                  7 (Menu.sourceHashNumber name description category meats addOns)
                  "") as H.
    change (String.length "") with 0%nat in H. lia.
Qed.

(** ** Service request events on the staff screen *)

Lemma request_event_effect (e : ChangeEvent ServiceRequest.t) (p : Staff.Page) :
  request_alerts (Staff.played (Staff.requestsChannel e p))
  = ((if is_insert e then 1 else 0) + request_alerts (Staff.played p))%nat
  /\ order_alerts (Staff.played (Staff.requestsChannel e p))
     = order_alerts (Staff.played p)
  /\ Staff.activeTab (Staff.requestsChannel e p)
     = (if is_insert e then Staff.requests_tab else Staff.activeTab p)
  /\ Staff.orders (Staff.requestsChannel e p) = Staff.orders p.
Proof.
  destruct e as [new|new|old]; simpl.
  - repeat split.
  - unfold Staff.requestsChannel.
    destruct (RequestStatus.eqb (ServiceRequest.status new) RequestStatus.completed);
      repeat split.
  - repeat split.
Qed.

(** X24: over any sequence of service-request events the staff screen
    calls the new-request alert once per INSERT event and never the
    new-order alert; it ends on the requests tab as soon as the sequence
    holds one INSERT and keeps its tab otherwise; the orders view is not
    touched. *)
Theorem request_events_alert_and_switch :
  forall (events : list (ChangeEvent ServiceRequest.t)) (p : Staff.Page),
    request_alerts (Staff.played (Staff.receiveRequests events p))
    = (inserts events + request_alerts (Staff.played p))%nat
    /\ order_alerts (Staff.played (Staff.receiveRequests events p))
       = order_alerts (Staff.played p)
    /\ Staff.activeTab (Staff.receiveRequests events p)
       = (if Nat.eqb (inserts events) 0 then Staff.activeTab p
          else Staff.requests_tab)
    /\ Staff.orders (Staff.receiveRequests events p) = Staff.orders p.
Proof.
  intros events. induction events as [|e events IH]; intros p.
  - repeat split.
  - unfold Staff.receiveRequests in *. simpl.
    destruct (IH (Staff.requestsChannel e p)) as [I1 [I2 [I3 I4]]].
    destruct (request_event_effect e p) as [E1 [E2 [E3 E4]]].
    rewrite I1, I2, I3, I4, E1, E2, E3, E4.
    unfold inserts. destruct e as [new|new|old]; simpl; repeat split; try lia.
    destruct (Nat.eqb (List.length (filter is_insert events)) 0); reflexivity.
Qed.
